(** * The tool executor of the scheduler

    A shallow embedding of [packages/core/src/scheduler/tool-executor.ts]:
    the error classifier [getToolErrorMessage], the three builders of
    terminal calls, the output truncation of [createSuccessResult] and the
    orchestration of [execute].

    JavaScript objects are records whose optional keys are [option] fields,
    the numbers of the configuration and of the clock are integers ([Z];
    NaN and fractions are not represented), strings are [string] (one
    character per UTF-16 code unit), a caught value is an [Error] object,
    a primitive, or any other value given by what [String] does on it, and the
    effects of the code (callbacks, telemetry, the artifact store, the
    metadata of the trace span, thrown faults) are threaded through a small
    state-and-exception monad. *)

From Stdlib Require Import ZArith String Ascii List Bool Lia DecimalString.
Import ListNotations.

Local Open Scope string_scope.
Local Open Scope Z_scope.

(** ** Values and faults *)

(** [s.length] of a JavaScript string. *)
Definition strlen (s : string) : Z := Z.of_nat (String.length s).

(** Modelled from the spec: the enumeration [ToolErrorType] lives in
    [../index.js], which is not part of the sources.  The executor only
    names [UNHANDLED_EXCEPTION]; the other kinds are the ones the
    specification mentions, with a catch-all for the rest. *)
Inductive ToolErrorType :=
| UNHANDLED_EXCEPTION
| INVALID_TOOL_PARAMS
| PERMISSION_DENIED
| OTHER_TOOL_ERROR (code : string).

(** [class ToolExecutionError extends Error]. *)
Record ToolExecutionError := mkToolExecutionError {
  te_message : string;
  te_returnDisplay : option string;
  te_errorType : option ToolErrorType
}.

(** The [Error] objects the executor tells apart with [instanceof]. *)
Inductive ErrorObject :=
| IsToolExecutionError (e : ToolExecutionError)
| IsError (message : string).

(** The integers that a JavaScript number holds exactly, and that
    [String] prints as their decimal digits. *)
Definition safe_integer (n : Z) : bool := Z.abs n <? 2 ^ 53.

(** Anything a [catch (executionError: unknown)] can receive: an [Error]
    object or any other value.  Of the values that are not [Error]
    objects the primitives are spelled out; any other value (an object, a
    symbol, a number that is not a safe integer) is given by what
    [String] does when applied to it: it returns a text, or it throws,
    as it does for an object without a string conversion. *)
Inductive JsValue :=
| JsUndefined
| JsNull
| JsBoolean (b : bool)
| JsNumber (n : Z) (safe : safe_integer n = true)
| JsString (s : string)
| JsOther (conversion : Conversion)
with Conversion :=
| Converts (text : string)
| Fails (fault : Thrown)
with Thrown :=
| ThrownError (e : ErrorObject)
| ThrownValue (v : JsValue).

(** ** The data model *)

Record ToolCallRequestInfo := mkRequest {
  callId : string;
  name : string;
  args : string;
  prompt_id : string
}.

Record Tool := mkTool {
  tool_name : string;
  canUpdateOutput : bool
}.

(** [invocation instanceof ShellToolInvocation] is the constructor test. *)
Inductive Invocation :=
| ShellToolInvocation (command : string)
| OtherToolInvocation (description : string).

Definition instanceof_ShellToolInvocation (i : Invocation) : bool :=
  match i with
  | ShellToolInvocation _ => true
  | OtherToolInvocation _ => false
  end.

(** [PartListUnion]: the content is a string or a list of parts. *)
Record FunctionResponse := mkFunctionResponse {
  fr_id : string;
  fr_name : string;
  fr_response : list (string * string)
}.

Inductive Part :=
| FunctionResponsePart (fr : FunctionResponse)
| OtherPart (payload : string).

Inductive PartListUnion :=
| TextContent (s : string)
| PartsContent (ps : list Part).

Record ToolErrorDescriptor := mkDescriptor {
  ed_message : string;
  ed_type : option ToolErrorType
}.

Record ToolResult := mkToolResult {
  llmContent : PartListUnion;
  tr_returnDisplay : option string;
  tr_error : option ToolErrorDescriptor
}.

Record ToolCallResponseInfo := mkResponse {
  ri_callId : string;
  responseParts : list Part;
  resultDisplay : option string;
  ri_error : option ErrorObject;
  ri_errorType : option ToolErrorType;
  outputFile : option string;
  contentLength : option Z
}.

(** Modelled from the spec: the union [ToolCall] is declared in
    [./types.js], which is not part of the sources.  The statuses are the
    five of the specification's call state model; the fields are the keys
    the executor reads or writes, optional ones as [option]. *)
Inductive Status := Pending | Executing | Success | Error | Cancelled.

Record ToolCall := mkToolCall {
  status : Status;
  request : ToolCallRequestInfo;
  tool : option Tool;
  invocation : option Invocation;
  startTime : option Z;
  outcome : option string;
  pid : option Z;
  response : option ToolCallResponseInfo;
  durationMs : option Z
}.

Inductive Checkpoint := AfterAwait | InHandler.

(** [ToolExecutionContext].  [signal c] is the value of [signal.aborted] at
    the program point that reads it: after the awaited promise resolved
    ([AfterAwait]) or on entry of the [catch] block ([InHandler]).
    [outputUpdateHandler] says whether the optional sink was supplied; the
    sink and [onUpdateToolCall] themselves are the logs of the [World]. *)
Record ToolExecutionContext := mkContext {
  call : ToolCall;
  signal : Checkpoint -> bool;
  outputUpdateHandler : bool
}.

Record ToolOutputTruncatedEvent := mkTruncatedEvent {
  ev_prompt_id : string;
  ev_toolName : string;
  originalContentLength : Z;
  truncatedContentLength : Z;
  ev_threshold : Z;
  ev_lines : Z
}.

Record SaveRequest := mkSaveRequest {
  sv_content : string;
  sv_toolName : string;
  sv_callId : string;
  sv_dir : string
}.

Record SpanMetadata := mkSpan {
  sm_input : option ToolCallRequestInfo;
  sm_output : option ToolResult;
  sm_error : option Thrown
}.

(** Everything the executor writes to: the calls handed to
    [onUpdateToolCall], the chunks handed to [outputUpdateHandler], the
    contents handed to the artifact store, the telemetry records and the
    metadata of the trace span. *)
Record World := mkWorld {
  published : list ToolCall;
  forwarded : list (string * string);
  artifacts : list SaveRequest;
  telemetry : list ToolOutputTruncatedEvent;
  span : SpanMetadata
}.

Definition empty_span : SpanMetadata := mkSpan None None None.
Definition initial_world : World := mkWorld [] [] [] [] empty_span.

(** ** The monad of effects *)

Inductive Completion (A : Type) :=
| Normal (a : A)
| Throw (f : Thrown).
Arguments Normal {A} a.
Arguments Throw {A} f.

Definition M (A : Type) : Type := World -> Completion A * World.

Definition ret {A} (a : A) : M A := fun w => (Normal a, w).
Definition throw {A} (f : Thrown) : M A := fun w => (Throw f, w).
Definition bind {A B} (m : M A) (k : A -> M B) : M B :=
  fun w =>
    match m w with
    | (Normal a, w') => k a w'
    | (Throw f, w') => (Throw f, w')
    end.
Definition try_catch {A} (body : M A) (handler : Thrown -> M A) : M A :=
  fun w =>
    match body w with
    | (Normal a, w') => (Normal a, w')
    | (Throw f, w') => handler f w'
    end.
Definition lift {A} (c : Completion A) : M A := fun w => (c, w).
Definition modify (f : World -> World) : M unit := fun w => (Normal tt, f w).

Notation "x <- m ;; k" := (bind m (fun x => k))
  (at level 61, m at next level, right associativity).
Notation "m ;;; k" := (bind m (fun _ => k))
  (at level 61, right associativity).

(** ** External collaborators *)

(** What the invocation layer does with the callbacks it is handed while
    the executor awaits it. *)
Inductive HookEvent :=
| LiveOutput (chunk : string)
| ProcessStarted (process : Z).

Record HookRun := mkHookRun {
  hk_events : list HookEvent;
  hk_settled : Completion ToolResult
}.

(** The getters of [Config] that the executor calls. *)
Record Config := mkConfig {
  getShellExecutionConfig : string;
  getEnableToolOutputTruncation : bool;
  getTruncateToolOutputThreshold : Z;
  getTruncateToolOutputLines : Z;
  getProjectTempDir : string;
  getActiveModel : string
}.

(** Modelled from the spec: the imports of the executor that are not part
    of the sources, as the interfaces of the specification's section on
    external interfaces.  [hook_chain] is the behaviour of
    [executeToolWithHooks] given the invocation, the tool name, the tool
    and whether a live-output and a process-identity callback were handed
    over: the callback events it raises, in order, and how its promise
    settles.  [saveTruncatedToolOutput] and [convertToFunctionResponse] may
    throw; [Date_now] is the reading of [Date.now()]. *)
Record Environment := mkEnvironment {
  SHELL_TOOL_NAME : string;
  config : Config;
  Date_now : Z;
  hook_chain : Invocation -> string -> Tool -> bool -> bool -> HookRun;
  saveTruncatedToolOutput :
    string -> string -> string -> string -> Completion string;
  formatTruncatedToolOutput : string -> string -> Z -> string;
  convertToFunctionResponse :
    string -> string -> PartListUnion -> string -> Completion (list Part)
}.

(** ** The error classifier *)

Record ToolErrorMessage := mkToolErrorMessage {
  message : string;
  display : string;
  errorType : option ToolErrorType
}.

(** Sequencing of computations that may throw but touch no state. *)
Definition and_then {A B} (c : Completion A) (k : A -> Completion B)
  : Completion B :=
  match c with
  | Normal a => k a
  | Throw f => Throw f
  end.

(** [String(v)]: the text of the value, or the fault of its conversion. *)
Definition String_of (v : JsValue) : Completion string :=
  match v with
  | JsUndefined => Normal "undefined"
  | JsNull => Normal "null"
  | JsBoolean true => Normal "true"
  | JsBoolean false => Normal "false"
  | JsNumber n _ => Normal (NilZero.string_of_int (Z.to_int n))
  | JsString s => Normal s
  | JsOther (Converts text) => Normal text
  | JsOther (Fails fault) => Throw fault
  end.

(** [error.message] of an [Error] object. *)
Definition error_message (e : ErrorObject) : string :=
  match e with
  | IsToolExecutionError t => te_message t
  | IsError m => m
  end.

(** [a ?? b]. *)
Definition nullish {A} (a : option A) (b : A) : A :=
  match a with
  | Some x => x
  | None => b
  end.

Definition getToolErrorMessage (error : Thrown)
  : Completion ToolErrorMessage :=
  match error with
  | ThrownError (IsToolExecutionError e) =>
      Normal {| message := te_message e;
                display := nullish (te_returnDisplay e) (te_message e);
                errorType := te_errorType e |}
  | ThrownError (IsError m) =>
      Normal {| message := m; display := m; errorType := None |}
  | ThrownValue v =>
      and_then (String_of v) (fun message =>
        Normal {| message := message; display := message;
                  errorType := None |})
  end.

(** ** The response builders *)

(** [startTime ? Date.now() - startTime : undefined]: the test is
    JavaScript truthiness, which [undefined] and [0] both fail. *)
Definition duration (now : Z) (startTime : option Z) : option Z :=
  match startTime with
  | Some s => if s =? 0 then None else Some (now - s)
  | None => None
  end.

Definition error_part (request : ToolCallRequestInfo) (text : string) : Part :=
  FunctionResponsePart
    {| fr_id := callId request;
       fr_name := name request;
       fr_response := [("error", text)] |}.

Definition createErrorResponse (request : ToolCallRequestInfo)
    (error : ErrorObject) (errorType : option ToolErrorType)
  : Completion ToolCallResponseInfo :=
  and_then (getToolErrorMessage (ThrownError error)) (fun m =>
    Normal {| ri_callId := callId request;
              responseParts := [error_part request (message m)];
              resultDisplay := Some (display m);
              ri_error := Some error;
              ri_errorType := errorType;
              outputFile := None;
              contentLength := Some (strlen (message m)) |}).

Section Executor.

Variable env : Environment.

Definition createCancelledResult (call : ToolCall) (reason : string)
  : M ToolCall :=
  let errorMessage := "[Operation Cancelled] " ++ reason in
  let startTime := startTime call in
  match tool call, invocation call with
  | Some t, Some i =>
      ret {| status := Cancelled;
             request := request call;
             tool := Some t;
             invocation := Some i;
             startTime := None;
             outcome := outcome call;
             pid := None;
             response := Some
               {| ri_callId := callId (request call);
                  responseParts := [error_part (request call) errorMessage];
                  resultDisplay := None;
                  ri_error := None;
                  ri_errorType := None;
                  outputFile := None;
                  contentLength := Some (strlen errorMessage) |};
             durationMs := duration (Date_now env) startTime |}
  | _, _ =>
      throw (ThrownError
        (IsError "Cancelled tool call missing tool/invocation references"))
  end.

Definition createErrorResult (call : ToolCall) (error : ErrorObject)
    (errorType : option ToolErrorType) : Completion ToolCall :=
  let finalErrorType :=
    match error with
    | IsToolExecutionError e => te_errorType e
    | IsError _ => errorType
    end in
  and_then (createErrorResponse (request call) error finalErrorType)
    (fun response =>
       let startTime := startTime call in
       Normal {| status := Error;
                 request := request call;
                 tool := tool call;
                 invocation := None;
                 startTime := None;
                 outcome := outcome call;
                 pid := None;
                 response := Some response;
                 durationMs := duration (Date_now env) startTime |}).

(** ** The output governor and the success builder *)

(** The guard of the truncation block, for a textual content. *)
Definition truncation_enabled (toolName : string) : bool :=
  String.eqb toolName (SHELL_TOOL_NAME env)
  && getEnableToolOutputTruncation (config env)
  && (getTruncateToolOutputThreshold (config env) >? 0)
  && (getTruncateToolOutputLines (config env) >? 0).

Definition logToolOutputTruncated (e : ToolOutputTruncatedEvent) : M unit :=
  modify (fun w =>
    mkWorld (published w) (forwarded w) (artifacts w)
            (telemetry w ++ [e]) (span w)).

Definition save (content toolName callId dir : string) : M string :=
  modify (fun w =>
    mkWorld (published w) (forwarded w)
            (artifacts w ++ [mkSaveRequest content toolName callId dir])
            (telemetry w) (span w)) ;;;
  lift (saveTruncatedToolOutput env content toolName callId dir).

(** Lines 233 to 270: the content and the artifact reference that go into
    the response. *)
Definition govern (call : ToolCall) (toolResult : ToolResult)
  : M (PartListUnion * option string) :=
  let content := llmContent toolResult in
  let toolName := name (request call) in
  let callId := callId (request call) in
  match content with
  | TextContent text =>
      if truncation_enabled toolName then
        let originalContentLength := strlen text in
        let threshold := getTruncateToolOutputThreshold (config env) in
        let lines := getTruncateToolOutputLines (config env) in
        if strlen text >? threshold then
          savedPath <- save text toolName callId
                         (getProjectTempDir (config env)) ;;
          let text' := formatTruncatedToolOutput env text savedPath lines in
          logToolOutputTruncated
            {| ev_prompt_id := prompt_id (request call);
               ev_toolName := toolName;
               originalContentLength := originalContentLength;
               truncatedContentLength := strlen text';
               ev_threshold := threshold;
               ev_lines := lines |} ;;;
          ret (TextContent text', Some savedPath)
        else ret (content, None)
      else ret (content, None)
  | PartsContent _ => ret (content, None)
  end.

Definition content_length (content : PartListUnion) : option Z :=
  match content with
  | TextContent text => Some (strlen text)
  | PartsContent _ => None
  end.

Definition createSuccessResult (call : ToolCall) (toolResult : ToolResult)
  : M ToolCall :=
  let toolName := name (request call) in
  let callId := callId (request call) in
  governed <- govern call toolResult ;;
  let content := fst governed in
  let outputFile := snd governed in
  response <- lift (convertToFunctionResponse env toolName callId content
                      (getActiveModel (config env))) ;;
  let successResponse :=
    {| ri_callId := callId;
       responseParts := response;
       resultDisplay := tr_returnDisplay toolResult;
       ri_error := None;
       ri_errorType := None;
       outputFile := outputFile;
       contentLength := content_length content |} in
  let startTime := startTime call in
  match tool call, invocation call with
  | Some t, Some i =>
      ret {| status := Success;
             request := request call;
             tool := Some t;
             invocation := Some i;
             startTime := None;
             outcome := outcome call;
             pid := None;
             response := Some successResponse;
             durationMs := duration (Date_now env) startTime |}
  | _, _ =>
      throw (ThrownError
        (IsError "Successful tool call missing tool or invocation"))
  end.

(** ** The executor *)

Definition onUpdateToolCall (updatedCall : ToolCall) : M unit :=
  modify (fun w =>
    mkWorld (published w ++ [updatedCall]) (forwarded w) (artifacts w)
            (telemetry w) (span w)).

Definition forward (callId : string) (chunk : string) : M unit :=
  modify (fun w =>
    mkWorld (published w) (forwarded w ++ [(callId, chunk)]) (artifacts w)
            (telemetry w) (span w)).

Definition set_span (f : SpanMetadata -> SpanMetadata) : M unit :=
  modify (fun w =>
    mkWorld (published w) (forwarded w) (artifacts w) (telemetry w)
            (f (span w))).

(** Lines 113 to 123. *)
Definition executingCall (call : ToolCall) (t : Tool) (i : Invocation)
    (process : Z) : ToolCall :=
  {| status := Executing;
     request := request call;
     tool := Some t;
     invocation := Some i;
     startTime := startTime call;
     outcome := outcome call;
     pid := Some process;
     response := response call;
     durationMs := durationMs call |}.

Definition setPidCallback (call : ToolCall) (t : Tool) (i : Invocation)
    (process : Z) : M unit :=
  onUpdateToolCall (executingCall call t i process).

(** Lines 93 to 98. *)
Definition liveOutputCallback (context : ToolExecutionContext) (t : Tool)
  : option (string -> M unit) :=
  if canUpdateOutput t && outputUpdateHandler context
  then Some (fun outputChunk =>
               forward (callId (request (call context))) outputChunk)
  else None.

Definition is_defined {A} (o : option A) : bool :=
  match o with
  | Some _ => true
  | None => false
  end.

Definition deliver (live : option (string -> M unit))
    (pidCb : option (Z -> M unit)) (e : HookEvent) : M unit :=
  match e with
  | LiveOutput chunk =>
      match live with
      | Some cb => cb chunk
      | None => ret tt
      end
  | ProcessStarted p =>
      match pidCb with
      | Some cb => cb p
      | None => ret tt
      end
  end.

Fixpoint replay (live : option (string -> M unit))
    (pidCb : option (Z -> M unit)) (events : list HookEvent) : M unit :=
  match events with
  | [] => ret tt
  | e :: rest => deliver live pidCb e ;;; replay live pidCb rest
  end.

(** The awaited promise of [executeToolWithHooks]: the layer raises its
    callback events, then settles or throws. *)
Definition executeToolWithHooks (i : Invocation) (toolName : string)
    (t : Tool) (live : option (string -> M unit))
    (pidCb : option (Z -> M unit)) : M ToolResult :=
  let run := hook_chain env i toolName t (is_defined live) (is_defined pidCb) in
  replay live pidCb (hk_events run) ;;;
  lift (hk_settled run).

(** [runInDevTraceSpan]: the body runs with a fresh metadata object. *)
Definition runInDevTraceSpan {A} (body : M A) : M A :=
  set_span (fun _ => empty_span) ;;; body.

Definition cancel_reason : string := "User cancelled tool execution.".

Definition execute (context : ToolExecutionContext) : M ToolCall :=
  let call := call context in
  let request := request call in
  let toolName := name request in
  let callId := callId request in
  match tool call, invocation call with
  | Some tool, Some invocation =>
      let liveOutputCallback := liveOutputCallback context tool in
      runInDevTraceSpan (
        set_span (fun m => mkSpan (Some request) (sm_output m) (sm_error m)) ;;;
        try_catch
          (let promise :=
             if instanceof_ShellToolInvocation invocation then
               executeToolWithHooks invocation toolName tool
                 liveOutputCallback
                 (Some (setPidCallback call tool invocation))
             else
               executeToolWithHooks invocation toolName tool
                 liveOutputCallback None in
           toolResult <- promise ;;
           set_span (fun m =>
             mkSpan (sm_input m) (Some toolResult) (sm_error m)) ;;;
           if signal context AfterAwait then
             createCancelledResult call cancel_reason
           else
             match tr_error toolResult with
             | None => createSuccessResult call toolResult
             | Some descriptor =>
                 let error :=
                   mkToolExecutionError (ed_message descriptor)
                     (tr_returnDisplay toolResult) (ed_type descriptor) in
                 lift (createErrorResult call (IsToolExecutionError error)
                         None)
             end)
          (fun executionError =>
             set_span (fun m =>
               mkSpan (sm_input m) (sm_output m) (Some executionError)) ;;;
             if signal context InHandler then
               createCancelledResult call cancel_reason
             else
               m <- lift (getToolErrorMessage executionError) ;;
               let finalErrorType :=
                 nullish (errorType m) UNHANDLED_EXCEPTION in
               let error :=
                 mkToolExecutionError (message m) (Some (display m))
                   (Some finalErrorType) in
               lift (createErrorResult call (IsToolExecutionError error)
                       None)))
  | _, _ =>
      throw (ThrownError (IsError
        ("Cannot execute tool call " ++ callId
           ++ ": Tool or Invocation missing.")))
  end.

End Executor.

(** ** Observations on calls and runs *)

(** The [error] key of the function response of a terminal call. *)
Definition response_error (c : ToolCall) : option string :=
  match response c with
  | Some r =>
      match responseParts r with
      | FunctionResponsePart fr :: _ =>
          match fr_response fr with
          | (key, text) :: _ =>
              if String.eqb key "error" then Some text else None
          | [] => None
          end
      | _ => None
      end
  | None => None
  end.

Definition response_display (c : ToolCall) : option string :=
  match response c with
  | Some r => resultDisplay r
  | None => None
  end.

Definition response_errorType (c : ToolCall) : option ToolErrorType :=
  match response c with
  | Some r => ri_errorType r
  | None => None
  end.

Definition response_outputFile (c : ToolCall) : option string :=
  match response c with
  | Some r => outputFile r
  | None => None
  end.

Definition response_contentLength (c : ToolCall) : option Z :=
  match response c with
  | Some r => contentLength r
  | None => None
  end.

Definition response_parts (c : ToolCall) : list Part :=
  match response c with
  | Some r => responseParts r
  | None => []
  end.

Definition pids_of (events : list HookEvent) : list Z :=
  flat_map (fun e => match e with
                     | ProcessStarted p => [p]
                     | LiveOutput _ => []
                     end) events.

Definition chunks_of (events : list HookEvent) : list string :=
  flat_map (fun e => match e with
                     | LiveOutput chunk => [chunk]
                     | ProcessStarted _ => []
                     end) events.

(** The run of the invocation layer that [execute] awaits. *)
Definition hook_run (env : Environment) (context : ToolExecutionContext)
    (t : Tool) (i : Invocation) : HookRun :=
  hook_chain env i (name (request (call context))) t
    (canUpdateOutput t && outputUpdateHandler context)
    (instanceof_ShellToolInvocation i).

Definition settlement (env : Environment) (context : ToolExecutionContext)
    (t : Tool) (i : Invocation) : Completion ToolResult :=
  hk_settled (hook_run env context t i).

(** The world in which the awaited promise settles: span input recorded,
    callback events delivered. *)
Definition settled_world (env : Environment) (context : ToolExecutionContext)
    (t : Tool) (i : Invocation) (w : World) : World :=
  let events := hk_events (hook_run env context t i) in
  mkWorld
    (published w ++
       (if instanceof_ShellToolInvocation i
        then map (executingCall (call context) t i) (pids_of events)
        else []))
    (forwarded w ++
       (if canUpdateOutput t && outputUpdateHandler context
        then map (pair (callId (request (call context)))) (chunks_of events)
        else []))
    (artifacts w) (telemetry w)
    (mkSpan (Some (request (call context))) None None).

Definition with_output (r : ToolResult) (w : World) : World :=
  mkWorld (published w) (forwarded w) (artifacts w) (telemetry w)
          (mkSpan (sm_input (span w)) (Some r) (sm_error (span w))).

Definition with_error (f : Thrown) (w : World) : World :=
  mkWorld (published w) (forwarded w) (artifacts w) (telemetry w)
          (mkSpan (sm_input (span w)) (sm_output (span w)) (Some f)).

(** The [catch] clause of [execute], lines 166 to 185. *)
Definition catch_clause (env : Environment) (context : ToolExecutionContext)
    (executionError : Thrown) : M ToolCall :=
  fun w =>
    if signal context InHandler then
      createCancelledResult env (call context) cancel_reason
        (with_error executionError w)
    else
      match getToolErrorMessage executionError with
      | Normal m =>
          (createErrorResult env (call context)
             (IsToolExecutionError
                (mkToolExecutionError (message m) (Some (display m))
                   (Some (nullish (errorType m) UNHANDLED_EXCEPTION))))
             None,
           with_error executionError w)
      | Throw e => (Throw e, with_error executionError w)
      end.

(** The fault that reaches the [catch] clause, if any: the fault of the
    invocation, or the fault raised while the success result is built
    (which happens only for a result without error descriptor, when the
    token is not aborted after the await). *)
Definition caught_fault (env : Environment) (context : ToolExecutionContext)
    (t : Tool) (i : Invocation) : option Thrown :=
  match settlement env context t i with
  | Throw f => Some f
  | Normal r =>
      if signal context AfterAwait then None
      else
        match tr_error r with
        | Some _ => None
        | None =>
            match fst (createSuccessResult env (call context) r
                         initial_world) with
            | Throw f => Some f
            | Normal _ => None
            end
        end
  end.



(** Whether the classifier returns on a fault. *)
Definition classifies (f : Thrown) : bool :=
  match getToolErrorMessage f with
  | Normal _ => true
  | Throw _ => false
  end.

(** Whether the [catch] clause, if it runs, comes to build a call: the
    token is aborted there, or the classifier returns on the fault. *)
Definition handler_returns (env : Environment)
    (context : ToolExecutionContext) (t : Tool) (i : Invocation) : bool :=
  match caught_fault env context t i with
  | Some f => signal context InHandler || classifies f
  | None => true
  end.

(** ** Race resolution, as the specification words it *)

(** The checkpoint that follows the settlement of the awaited promise: the
    test after the [await] when it resolved, the test that opens the
    [catch] clause when it rejected. *)
Definition first_checkpoint (s : Completion ToolResult) : Checkpoint :=
  match s with
  | Normal _ => AfterAwait
  | Throw _ => InHandler
  end.


Definition precondition_fault (c : ToolCall) : Thrown :=
  ThrownError (IsError
    ("Cannot execute tool call " ++ callId (request c)
       ++ ": Tool or Invocation missing.")).

(** ** Fault shapes *)

(** A structured fault is an instance of [ToolExecutionError]. *)
Definition is_structured (f : Thrown) : bool :=
  match f with
  | ThrownError (IsToolExecutionError _) => true
  | _ => false
  end.

(** The textual representation of a fault: [error.message] of an [Error],
    [String(error)] of any other value. *)
Definition textual (f : Thrown) : Completion string :=
  match f with
  | ThrownError e => Normal (error_message e)
  | ThrownValue v => String_of v
  end.

(** The classification of a fault that is not structured, from its
    textual representation. *)
Definition unstructured (text : Completion string)
  : Completion ToolErrorMessage :=
  and_then text (fun m =>
    Normal {| message := m; display := m; errorType := None |}).

(** ** Sample collaborators and calls *)

Definition sample_config (enabled : bool) (threshold lines : Z) : Config :=
  mkConfig "sh" enabled threshold lines "/tmp/project" "model-1".

Definition sample_store (content toolName callId dir : string)
  : Completion string :=
  Normal (dir ++ "/" ++ toolName ++ "_" ++ callId ++ ".output").

Definition failing_store (content toolName callId dir : string)
  : Completion string :=
  Throw (ThrownError (IsError "ENOSPC: no space left on device")).

Definition sample_format (content file : string) (lines : Z) : string :=
  "Output truncated, full output saved to: " ++ file.

Definition sample_convert (toolName callId : string)
    (content : PartListUnion) (model : string) : Completion (list Part) :=
  Normal
    [FunctionResponsePart
       (mkFunctionResponse callId toolName
          [("output", match content with
                      | TextContent s => s
                      | PartsContent _ => ""
                      end)])].

Definition sample_env (cfg : Config) (now : Z) (run : HookRun)
  : Environment :=
  mkEnvironment "run_shell_command" cfg now (fun _ _ _ _ _ => run)
    sample_store sample_format sample_convert.

Definition shell_request : ToolCallRequestInfo :=
  mkRequest "call-1" "run_shell_command" "{}" "prompt-1".
Definition shell_tool : Tool := mkTool "run_shell_command" true.
Definition shell_invocation : Invocation := ShellToolInvocation "ls".
Definition shell_call (start : option Z) : ToolCall :=
  mkToolCall Pending shell_request (Some shell_tool) (Some shell_invocation)
    start None None None None.

Definition reader_request : ToolCallRequestInfo :=
  mkRequest "call-2" "read_file" "{}" "prompt-1".
Definition reader_tool : Tool := mkTool "read_file" false.
Definition reader_invocation : Invocation := OtherToolInvocation "read".
Definition reader_call (start : option Z) : ToolCall :=
  mkToolCall Pending reader_request (Some reader_tool)
    (Some reader_invocation) start None None None None.

(** A call whose tool was never resolved. *)
Definition unresolved_call : ToolCall :=
  mkToolCall Pending shell_request None None (Some 1000) None None None None.

Definition text_result (s : string) : ToolResult :=
  mkToolResult (TextContent s) (Some "done") None.

Definition failed_result : ToolResult :=
  mkToolResult (TextContent "") (Some "File not found")
    (Some (mkDescriptor "ENOENT: no such file" (Some INVALID_TOOL_PARAMS))).

Fixpoint repeated (n : nat) (a : ascii) : string :=
  match n with
  | O => EmptyString
  | S k => String a (repeated k a)
  end.

(** The fault of [String] on an object without a string conversion, such
    as [Object.create(null)]. *)
Definition cannot_convert : Thrown :=
  ThrownError (IsError "Cannot convert object to primitive value").

Definition null_prototype_object : JsValue := JsOther (Fails cannot_convert).

Definition never_aborted : Checkpoint -> bool := fun _ => false.
Definition always_aborted : Checkpoint -> bool := fun _ => true.

Definition settles (r : ToolResult) : HookRun := mkHookRun [] (Normal r).
Definition rejects (f : Thrown) : HookRun := mkHookRun [] (Throw f).

Definition failing_store_env (cfg : Config) (now : Z) (run : HookRun)
  : Environment :=
  mkEnvironment "run_shell_command" cfg now (fun _ _ _ _ _ => run)
    failing_store sample_format sample_convert.

(** An invocation layer that reports two process identities. *)
Definition reports_twice (r : ToolResult) : HookRun :=
  mkHookRun [ProcessStarted 4242; LiveOutput "started"; ProcessStarted 4243]
    (Normal r).

(** ** The claims of the specification that the code does not meet, as
    they are worded *)

Definition is_executing (c : ToolCall) : bool :=
  match status c with
  | Executing => true
  | _ => false
  end.

(** The number of [executing] calls handed to the notifier. *)
Definition executing_count (w : World) : nat :=
  List.length (filter is_executing (published w)).

(** "[executing] is reachable at most once per call": one execution
    publishes at most one executing call. *)
Definition executing_at_most_once (env : Environment)
    (context : ToolExecutionContext) : Prop :=
  (executing_count (snd (execute env context initial_world)) <= 1)%nat.

(** "Duration is undefined iff no start time was recorded, else
    non-negative". *)
Definition duration_as_stated (env : Environment)
    (context : ToolExecutionContext) : Prop :=
  forall c w',
    execute env context initial_world = (Normal c, w') ->
    (durationMs c = None <-> startTime (call context) = None)
    /\ (forall s, startTime (call context) = Some s ->
          exists d, durationMs c = Some d /\ 0 <= d).

(** "Given textual success content of length L > threshold > 0 and
    maxPreviewLines > 0: returned content length < L, an artifact
    reference is produced, and the telemetry record's original/truncated
    lengths equal the actual pre/post lengths". *)
Definition governs_as_stated (env : Environment) (c : ToolCall)
    (r : ToolResult) : Prop :=
  forall text c' w',
    llmContent r = TextContent text ->
    0 < getTruncateToolOutputThreshold (config env) ->
    getTruncateToolOutputThreshold (config env) < strlen text ->
    0 < getTruncateToolOutputLines (config env) ->
    createSuccessResult env c r initial_world = (Normal c', w') ->
    (exists n, response_contentLength c' = Some n /\ n < strlen text)
    /\ (exists file, response_outputFile c' = Some file)
    /\ (exists e,
          telemetry w' = [e]
          /\ originalContentLength e = strlen text
          /\ response_contentLength c' = Some (truncatedContentLength e)).

(** ** Further observations and samples *)

Definition response_errorObject (c : ToolCall) : option ErrorObject :=
  match response c with
  | Some r => ri_error r
  | None => None
  end.

Definition response_callId (c : ToolCall) : option string :=
  match response c with
  | Some r => Some (ri_callId r)
  | None => None
  end.

(** The [invocation] key of a terminal call: the error call is built
    without it. *)
Definition terminal_invocation (s : Status) (i : Invocation)
  : option Invocation :=
  match s with
  | Error => None
  | _ => Some i
  end.

(** The request that [createSuccessResult] hands to the artifact store. *)
Definition save_request (env : Environment) (c : ToolCall) (text : string)
  : SaveRequest :=
  mkSaveRequest text (name (request c)) (callId (request c))
    (getProjectTempDir (config env)).

(** The telemetry record of a truncation that stored [text] in [file]. *)
Definition truncation_event (env : Environment) (c : ToolCall)
    (text file : string) : ToolOutputTruncatedEvent :=
  {| ev_prompt_id := prompt_id (request c);
     ev_toolName := name (request c);
     originalContentLength := strlen text;
     truncatedContentLength :=
       strlen (formatTruncatedToolOutput env text file
                 (getTruncateToolOutputLines (config env)));
     ev_threshold := getTruncateToolOutputThreshold (config env);
     ev_lines := getTruncateToolOutputLines (config env) |}.

Definition failing_convert (toolName callId : string)
    (content : PartListUnion) (model : string) : Completion (list Part) :=
  Throw (ThrownValue (JsString "unsupported content")).

Definition failing_convert_env (cfg : Config) (now : Z) (run : HookRun)
  : Environment :=
  mkEnvironment "run_shell_command" cfg now (fun _ _ _ _ _ => run)
    sample_store sample_format failing_convert.

Definition parts_result : ToolResult :=
  mkToolResult (PartsContent [OtherPart "image/png"]) (Some "image") None.

(** A token aborted only after the test that follows the await. *)
Definition aborted_late : Checkpoint -> bool :=
  fun c => match c with
           | AfterAwait => false
           | InHandler => true
           end.

(** ** Unfolding lemmas *)

(** Closes the goals about [createSuccessResult] once the governor has
    been run: the conversion, then the test of the tool and invocation
    keys. *)
Ltac finish_build env c :=
  unfold bind, lift; cbn [fst snd];
  destruct (convertToFunctionResponse env _ _ _ _); [|reflexivity];
  destruct (tool c), (invocation c); reflexivity.

Lemma replay_executor context t i (b : bool) events w :
  replay (liveOutputCallback context t)
    (if b then Some (setPidCallback (call context) t i) else None)
    events w
  = (Normal tt,
     mkWorld
       (published w ++
          (if b then map (executingCall (call context) t i) (pids_of events)
           else []))
       (forwarded w ++
          (if canUpdateOutput t && outputUpdateHandler context
           then map (pair (callId (request (call context))))
                  (chunks_of events)
           else []))
       (artifacts w) (telemetry w) (span w)).
Proof.
  revert w. induction events as [|e rest IH]; intro w.
  - simpl. unfold ret. destruct w; simpl.
    destruct b, (canUpdateOutput t && outputUpdateHandler context);
      rewrite !app_nil_r; reflexivity.
  - cbn [replay]. unfold bind at 1.
    destruct e as [chunk|p]; cbn [deliver].
    + unfold liveOutputCallback at 1.
      destruct (canUpdateOutput t && outputUpdateHandler context) eqn:Hlive.
      * unfold forward, modify. rewrite IH. cbn.
        rewrite <- !app_assoc. reflexivity.
      * unfold ret. rewrite IH. reflexivity.
    + destruct b.
      * unfold setPidCallback, onUpdateToolCall, modify. rewrite IH. cbn.
        rewrite <- !app_assoc. reflexivity.
      * unfold ret. rewrite IH. reflexivity.
Qed.

Lemma createCancelledResult_normal env c reason t i w :
  tool c = Some t -> invocation c = Some i ->
  exists r,
    createCancelledResult env c reason w = (Normal r, w)
    /\ status r = Cancelled
    /\ response_error r = Some ("[Operation Cancelled] " ++ reason)
    /\ durationMs r = duration (Date_now env) (startTime c).
Proof.
  intros Ht Hi. unfold createCancelledResult. rewrite Ht, Hi.
  eexists. split; [reflexivity|]. repeat split.
Qed.

Lemma execute_eq env context t i w :
  tool (call context) = Some t ->
  invocation (call context) = Some i ->
  execute env context w =
    let w1 := settled_world env context t i w in
    match settlement env context t i with
    | Normal r =>
        let w2 := with_output r w1 in
        if signal context AfterAwait then
          createCancelledResult env (call context) cancel_reason w2
        else
          match tr_error r with
          | None =>
              match createSuccessResult env (call context) r w2 with
              | (Normal c, w3) => (Normal c, w3)
              | (Throw f, w3) => catch_clause env context f w3
              end
          | Some d =>
              (createErrorResult env (call context)
                 (IsToolExecutionError
                    (mkToolExecutionError (ed_message d)
                       (tr_returnDisplay r) (ed_type d)))
                 None,
               w2)
          end
    | Throw f => catch_clause env context f w1
    end.
Proof.
  intros Ht Hi. unfold execute. rewrite Ht, Hi.
  unfold runInDevTraceSpan, set_span.
  unfold bind at 1. unfold modify at 1.
  unfold bind at 1. unfold modify at 1.
  unfold try_catch, settlement, hook_run, settled_world, hook_run.
  assert (Hlive : is_defined (liveOutputCallback context t)
                  = canUpdateOutput t && outputUpdateHandler context).
  { unfold liveOutputCallback.
    destruct (canUpdateOutput t && outputUpdateHandler context); reflexivity. }
  assert (Hrun : forall w0,
    (if instanceof_ShellToolInvocation i
     then executeToolWithHooks env i (name (request (call context))) t
            (liveOutputCallback context t)
            (Some (setPidCallback (call context) t i))
     else executeToolWithHooks env i (name (request (call context))) t
            (liveOutputCallback context t) None) w0
    = (hk_settled (hook_chain env i (name (request (call context))) t
         (canUpdateOutput t && outputUpdateHandler context)
         (instanceof_ShellToolInvocation i)),
       snd (replay (liveOutputCallback context t)
         (if instanceof_ShellToolInvocation i
          then Some (setPidCallback (call context) t i) else None)
         (hk_events (hook_chain env i (name (request (call context))) t
            (canUpdateOutput t && outputUpdateHandler context)
            (instanceof_ShellToolInvocation i))) w0))).
  { intro w0. destruct (instanceof_ShellToolInvocation i);
      unfold executeToolWithHooks; rewrite Hlive; cbn [is_defined];
      unfold bind, lift.
    - rewrite (replay_executor context t i true). reflexivity.
    - rewrite (replay_executor context t i false). reflexivity. }
  unfold bind at 1. rewrite Hrun. rewrite replay_executor. cbn [snd].
  cbn [published forwarded artifacts telemetry span].
  destruct (hk_settled _) as [r|f]; cbn zeta.
  - unfold bind at 1. unfold modify at 1. cbn [span sm_input sm_error
      published forwarded artifacts telemetry empty_span].
    unfold with_output. cbn [span sm_input sm_error published forwarded
      artifacts telemetry].
    destruct (signal context AfterAwait).
    + unfold createCancelledResult. rewrite Ht, Hi. reflexivity.
    + destruct (tr_error r); [reflexivity|].
      match goal with
      | |- context [createSuccessResult env (call context) r ?w] =>
          destruct (createSuccessResult env (call context) r w)
            as [[c|f] w3]
      end; [reflexivity|].
      unfold catch_clause, bind, modify, ret, lift, with_error.
      destruct (signal context InHandler); [reflexivity|].
      destruct (getToolErrorMessage f); reflexivity.
  - unfold catch_clause, bind, modify, ret, lift, with_error.
    cbn [span sm_input sm_output sm_error published forwarded artifacts
         telemetry].
    destruct (signal context InHandler); [reflexivity|].
    destruct (getToolErrorMessage f); reflexivity.
Qed.

(** An error call built from a [ToolExecutionError]: the classifier
    returns on such an object, so the builder does. *)
Lemma createErrorResult_returns env c e k :
  exists c',
    createErrorResult env c (IsToolExecutionError e) k = Normal c'
    /\ status c' = Error
    /\ durationMs c' = duration (Date_now env) (startTime c)
    /\ response_error c' = Some (te_message e)
    /\ response_display c'
       = Some (nullish (te_returnDisplay e) (te_message e))
    /\ response_errorType c' = te_errorType e.
Proof.
  eexists. split; [reflexivity|]. repeat split.
Qed.

Lemma catch_clause_world env context t i f w :
  tool (call context) = Some t ->
  invocation (call context) = Some i ->
  snd (catch_clause env context f w) = with_error f w.
Proof.
  intros Ht Hi. unfold catch_clause.
  destruct (signal context InHandler).
  - unfold createCancelledResult. rewrite Ht, Hi. reflexivity.
  - destruct (getToolErrorMessage f); reflexivity.
Qed.

(** The [catch] clause throws exactly when the token is not aborted and
    the classifier throws, and then it throws the classifier's fault. *)
Lemma catch_clause_throws env context f w e :
  signal context InHandler = false ->
  getToolErrorMessage f = Throw e ->
  catch_clause env context f w = (Throw e, with_error f w).
Proof.
  intros Hab Hcls. unfold catch_clause. rewrite Hab, Hcls. reflexivity.
Qed.

Lemma catch_clause_normal env context t i f w :
  tool (call context) = Some t ->
  invocation (call context) = Some i ->
  signal context InHandler || classifies f = true ->
  exists c,
    catch_clause env context f w = (Normal c, with_error f w)
    /\ status c = (if signal context InHandler then Cancelled else Error)
    /\ durationMs c = duration (Date_now env) (startTime (call context))
    /\ (signal context InHandler = true ->
        response_error c = Some ("[Operation Cancelled] " ++ cancel_reason))
    /\ (signal context InHandler = false ->
        forall m,
          getToolErrorMessage f = Normal m ->
          response_error c = Some (message m)
          /\ response_display c = Some (display m)
          /\ response_errorType c =
               Some (nullish (errorType m) UNHANDLED_EXCEPTION)).
Proof.
  intros Ht Hi Hret. unfold catch_clause.
  destruct (signal context InHandler).
  - destruct (createCancelledResult_normal env (call context) cancel_reason
                t i (with_error f w) Ht Hi) as (c & Hc & Hs & He & Hd).
    exists c. repeat split; auto; discriminate.
  - cbn [orb] in Hret. unfold classifies in Hret.
    destruct (getToolErrorMessage f) as [m|e]; [|discriminate].
    eexists. split; [reflexivity|]. split; [reflexivity|].
    split; [reflexivity|]. split; [discriminate|].
    intros _ m0 Hm. injection Hm as <-. repeat split.
Qed.

(** The classifier returns on every fault except a value whose string
    conversion throws, on which it throws what the conversion throws. *)
Lemma classifies_unless_conversion_fails f :
  classifies f = false
  <-> exists fault, f = ThrownValue (JsOther (Fails fault)).
Proof.
  unfold classifies. split.
  - destruct f as [[e|m]|v]; try discriminate.
    destruct v as [| |[|]|n safe|s|[text|fault]]; try discriminate.
    intros _. exists fault. reflexivity.
  - intros (fault & ->). reflexivity.
Qed.

Lemma catch_clause_returns_only_if env context f w c w' :
  catch_clause env context f w = (Normal c, w') ->
  signal context InHandler || classifies f = true.
Proof.
  unfold catch_clause, classifies.
  destruct (signal context InHandler); [reflexivity|].
  destruct (getToolErrorMessage f); [reflexivity|discriminate].
Qed.

Lemma createSuccessResult_inv env c r w c' w' :
  createSuccessResult env c r w = (Normal c', w') ->
  status c' = Success
  /\ durationMs c' = duration (Date_now env) (startTime c)
  /\ response_display c' = tr_returnDisplay r.
Proof.
  unfold createSuccessResult. unfold bind at 1.
  destruct (govern env c r w) as [[g|f] w1]; [|discriminate].
  unfold bind, lift.
  destruct (convertToFunctionResponse env _ _ _ _) as [ps|f]; [|discriminate].
  destruct (tool c), (invocation c); unfold ret, throw; try discriminate.
  intro H. injection H as <- <-. repeat split.
Qed.


(** The truncation block, case by case. *)
Lemma govern_eq env c r w :
  govern env c r w =
    match llmContent r with
    | TextContent text =>
        let toolName := name (request c) in
        let threshold := getTruncateToolOutputThreshold (config env) in
        let lines := getTruncateToolOutputLines (config env) in
        if truncation_enabled env toolName && (strlen text >? threshold) then
          let w1 :=
            mkWorld (published w) (forwarded w)
              (artifacts w ++
                 [mkSaveRequest text toolName (callId (request c))
                    (getProjectTempDir (config env))])
              (telemetry w) (span w) in
          match saveTruncatedToolOutput env text toolName
                  (callId (request c)) (getProjectTempDir (config env)) with
          | Normal savedPath =>
              let text' :=
                formatTruncatedToolOutput env text savedPath lines in
              (Normal (TextContent text', Some savedPath),
               mkWorld (published w1) (forwarded w1) (artifacts w1)
                 (telemetry w1 ++
                    [{| ev_prompt_id := prompt_id (request c);
                        ev_toolName := toolName;
                        originalContentLength := strlen text;
                        truncatedContentLength := strlen text';
                        ev_threshold := threshold;
                        ev_lines := lines |}])
                 (span w1))
          | Throw f => (Throw f, w1)
          end
        else (Normal (llmContent r, None), w)
    | PartsContent _ => (Normal (llmContent r, None), w)
    end.
Proof.
  unfold govern. destruct (llmContent r) as [text|ps]; [|reflexivity].
  cbn zeta. destruct (truncation_enabled env (name (request c)));
    [|reflexivity].
  cbn [andb]. destruct (strlen text >? _); [|reflexivity].
  unfold save, bind, modify, lift, logToolOutputTruncated, ret.
  destruct (saveTruncatedToolOutput env _ _ _ _); reflexivity.
Qed.

Lemma govern_span env c r w :
  span (snd (govern env c r w)) = span w.
Proof.
  rewrite govern_eq. destruct (llmContent r) as [text|ps]; [|reflexivity].
  cbn zeta. destruct (_ && _); [|reflexivity].
  destruct (saveTruncatedToolOutput env _ _ _ _); reflexivity.
Qed.

Lemma createSuccessResult_span env c r w :
  span (snd (createSuccessResult env c r w)) = span w.
Proof.
  unfold createSuccessResult. unfold bind at 1.
  pose proof (govern_span env c r w) as Hg.
  destruct (govern env c r w) as [[g|f] w1]; cbn [snd] in *; [|exact Hg].
  unfold bind, lift.
  destruct (convertToFunctionResponse env _ _ _ _); [|exact Hg].
  destruct (tool c), (invocation c); exact Hg.
Qed.

Lemma createSuccessResult_cases env c r w :
  createSuccessResult env c r w =
    match govern env c r w with
    | (Throw f, w1) => (Throw f, w1)
    | (Normal governed, w1) =>
        match convertToFunctionResponse env (name (request c))
                (callId (request c)) (fst governed)
                (getActiveModel (config env)) with
        | Throw f => (Throw f, w1)
        | Normal parts =>
            match tool c, invocation c with
            | Some t, Some i =>
                (Normal
                   {| status := Success;
                      request := request c;
                      tool := Some t;
                      invocation := Some i;
                      startTime := None;
                      outcome := outcome c;
                      pid := None;
                      response := Some
                        {| ri_callId := callId (request c);
                           responseParts := parts;
                           resultDisplay := tr_returnDisplay r;
                           ri_error := None;
                           ri_errorType := None;
                           outputFile := snd governed;
                           contentLength := content_length (fst governed) |};
                      durationMs :=
                        duration (Date_now env) (startTime c) |},
                 w1)
            | _, _ =>
                (Throw (ThrownError (IsError
                   "Successful tool call missing tool or invocation")),
                 w1)
            end
        end
    end.
Proof.
  unfold createSuccessResult. unfold bind at 1.
  destruct (govern env c r w) as [[g|f] w1]; [|reflexivity].
  unfold bind, lift.
  destruct (convertToFunctionResponse env _ _ _ _); [|reflexivity].
  destruct (tool c), (invocation c); reflexivity.
Qed.

(** Which builder made the terminal call of an execution. *)
Lemma createSuccessResult_fst env c r w w0 :
  fst (createSuccessResult env c r w) = fst (createSuccessResult env c r w0).
Proof.
  unfold createSuccessResult. unfold bind at 1 3. rewrite !govern_eq.
  destruct (llmContent r) as [text|ps]; cbn zeta.
  - destruct (_ && _).
    + destruct (saveTruncatedToolOutput env _ _ _ _); [|reflexivity].
      finish_build env c.
    + finish_build env c.
  - finish_build env c.
Qed.

(** The five paths of an execution under the precondition: the fault of
    the invocation goes to the [catch] clause; the token is found aborted
    after the await; the result carries an error descriptor; the success
    result is built; building it faults and the fault goes to the
    [catch] clause. *)
Lemma execute_paths env context t i w :
  tool (call context) = Some t ->
  invocation (call context) = Some i ->
  let w1 := settled_world env context t i w in
  (exists f,
     settlement env context t i = Throw f
     /\ caught_fault env context t i = Some f
     /\ execute env context w = catch_clause env context f w1)
  \/ (exists r c,
        settlement env context t i = Normal r
        /\ signal context AfterAwait = true
        /\ caught_fault env context t i = None
        /\ createCancelledResult env (call context) cancel_reason
             (with_output r w1) = (Normal c, with_output r w1)
        /\ execute env context w = (Normal c, with_output r w1))
  \/ (exists r d,
        settlement env context t i = Normal r
        /\ signal context AfterAwait = false
        /\ tr_error r = Some d
        /\ caught_fault env context t i = None
        /\ execute env context w
           = (createErrorResult env (call context)
                (IsToolExecutionError
                   (mkToolExecutionError (ed_message d)
                      (tr_returnDisplay r) (ed_type d)))
                None,
              with_output r w1))
  \/ (exists r c w3,
        settlement env context t i = Normal r
        /\ signal context AfterAwait = false
        /\ tr_error r = None
        /\ caught_fault env context t i = None
        /\ createSuccessResult env (call context) r (with_output r w1)
           = (Normal c, w3)
        /\ execute env context w = (Normal c, w3))
  \/ (exists r f w3,
        settlement env context t i = Normal r
        /\ signal context AfterAwait = false
        /\ tr_error r = None
        /\ caught_fault env context t i = Some f
        /\ createSuccessResult env (call context) r (with_output r w1)
           = (Throw f, w3)
        /\ execute env context w = catch_clause env context f w3).
Proof.
  intros Ht Hi w1. rewrite (execute_eq env context t i w Ht Hi). cbn zeta.
  fold w1. unfold caught_fault.
  destruct (settlement env context t i) as [r|f].
  - destruct (signal context AfterAwait) eqn:Hab.
    + right. left.
      destruct (createCancelledResult_normal env (call context) cancel_reason
                  t i (with_output r w1) Ht Hi) as (c & Hc & _).
      exists r, c. rewrite Hc. auto.
    + destruct (tr_error r) as [d|] eqn:Hd.
      * right. right. left. exists r, d. auto.
      * rewrite (createSuccessResult_fst env (call context) r initial_world
                   (with_output r w1)).
        destruct (createSuccessResult env (call context) r (with_output r w1))
          as [[c|f] w3] eqn:Hb; cbn [fst].
        -- right. right. right. left. exists r, c, w3. repeat split; auto.
        -- right. right. right. right. exists r, f, w3. repeat split; auto.
  - left. exists f. auto.
Qed.

(** Under the precondition [execute] returns a terminal call whenever the
    [catch] clause, if it runs, comes to build one. *)
Lemma execute_returns env context t i w :
  tool (call context) = Some t ->
  invocation (call context) = Some i ->
  handler_returns env context t i = true ->
  exists c w',
    execute env context w = (Normal c, w')
    /\ (status c = Success \/ status c = Error \/ status c = Cancelled)
    /\ durationMs c = duration (Date_now env) (startTime (call context)).
Proof.
  intros Ht Hi Hret. unfold handler_returns in Hret.
  destruct (execute_paths env context t i w Ht Hi)
    as [(f & _ & Hcf & He)
       |[(r & c & _ & _ & _ & Hc & He)
        |[(r & d & _ & _ & _ & _ & He)
         |[(r & c & w3 & _ & _ & _ & _ & Hb & He)
          |(r & f & w3 & _ & _ & _ & Hcf & _ & He)]]]];
    rewrite He.
  - rewrite Hcf in Hret.
    destruct (catch_clause_normal env context t i f
                (settled_world env context t i w) Ht Hi Hret)
      as (c & Hc & Hs & Hd & _).
    exists c. eexists. split; [exact Hc|]. split; [|exact Hd].
    rewrite Hs. destruct (signal context InHandler); auto.
  - unfold createCancelledResult in Hc. rewrite Ht, Hi in Hc.
    injection Hc as <-. eexists. eexists. split; [reflexivity|]. auto.
  - destruct (createErrorResult_returns env (call context)
                (mkToolExecutionError (ed_message d) (tr_returnDisplay r)
                   (ed_type d)) None) as (c & Hc & Hs & Hd & _).
    rewrite Hc. exists c. eexists. split; [reflexivity|]. auto.
  - apply createSuccessResult_inv in Hb. destruct Hb as (Hs & Hd & _).
    exists c, w3. auto.
  - rewrite Hcf in Hret.
    destruct (catch_clause_normal env context t i f w3 Ht Hi Hret)
      as (c & Hc & Hs & Hd & _).
    exists c. eexists. split; [exact Hc|]. split; [|exact Hd].
    rewrite Hs. destruct (signal context InHandler); auto.
Qed.

(** Conversely, a terminal call is returned only in that case, and every
    terminal call has one of the three statuses and the duration of the
    builders. *)
Lemma execute_returned env context t i w c w' :
  tool (call context) = Some t ->
  invocation (call context) = Some i ->
  execute env context w = (Normal c, w') ->
  handler_returns env context t i = true
  /\ (status c = Success \/ status c = Error \/ status c = Cancelled)
  /\ durationMs c = duration (Date_now env) (startTime (call context)).
Proof.
  intros Ht Hi Hrun.
  assert (Hret : handler_returns env context t i = true).
  { unfold handler_returns.
    destruct (execute_paths env context t i w Ht Hi)
      as [(f & _ & Hcf & He)
         |[(r & c1 & _ & _ & Hcf & _)
          |[(r & d & _ & _ & _ & Hcf & _)
           |[(r & c1 & w3 & _ & _ & _ & Hcf & _)
            |(r & f & w3 & _ & _ & _ & Hcf & _ & He)]]]];
      rewrite Hcf; try reflexivity;
      rewrite He in Hrun;
      exact (catch_clause_returns_only_if _ _ _ _ _ _ Hrun). }
  split; [exact Hret|].
  destruct (execute_returns env context t i w Ht Hi Hret)
    as (c1 & w1 & Hc & H3 & Hd).
  rewrite Hrun in Hc. injection Hc as <- <-. auto.
Qed.

(** Otherwise the fault of the classifier leaves [execute]. *)
Lemma execute_throws env context t i w :
  tool (call context) = Some t ->
  invocation (call context) = Some i ->
  handler_returns env context t i = false ->
  exists f e w',
    caught_fault env context t i = Some f
    /\ signal context InHandler = false
    /\ getToolErrorMessage f = Throw e
    /\ execute env context w = (Throw e, w').
Proof.
  intros Ht Hi Hret. unfold handler_returns in Hret.
  destruct (caught_fault env context t i) as [f|] eqn:Hcf; [|discriminate].
  apply orb_false_iff in Hret. destruct Hret as (Hab & Hcls).
  unfold classifies in Hcls.
  destruct (getToolErrorMessage f) as [m|e] eqn:Hm; [discriminate|].
  destruct (execute_paths env context t i w Ht Hi)
    as [(f1 & _ & Hcf1 & He)
       |[(r & c1 & _ & _ & Hcf1 & _)
        |[(r & d & _ & _ & _ & Hcf1 & _)
         |[(r & c1 & w3 & _ & _ & _ & Hcf1 & _)
          |(r & f1 & w3 & _ & _ & _ & Hcf1 & _ & He)]]]];
    rewrite Hcf in Hcf1; try discriminate; injection Hcf1 as <-;
    exists f, e; eexists; (split; [reflexivity|]); (split; [exact Hab|]);
    (split; [exact Hm|]); rewrite He;
    exact (catch_clause_throws env context f _ e Hab Hm).
Qed.

(** ** The precondition and the faults that leave [execute] *)

(** C8: the claim fails on the code.  With tool and invocation present
    and the token not aborted, an invocation that rejects with an object
    without a string conversion makes [String(error)] throw inside the
    [catch] clause, and that fault leaves [execute], although it is not
    the precondition fault; the span has recorded the caught value. *)
Theorem classifier_fault_leaves_execute :
  tool (shell_call (Some 1000)) = Some shell_tool
  /\ invocation (shell_call (Some 1000)) = Some shell_invocation
  /\ exists w',
       execute
         (sample_env (sample_config true 500 5) 5000
            (rejects (ThrownValue null_prototype_object)))
         (mkContext (shell_call (Some 1000)) never_aborted false)
         initial_world
       = (Throw cannot_convert, w')
       /\ cannot_convert <> precondition_fault (shell_call (Some 1000))
       /\ sm_error (span w') = Some (ThrownValue null_prototype_object).
Proof.
  split; [reflexivity|]. split; [reflexivity|].
  eexists. split; [cbv; reflexivity|]. split; [discriminate|reflexivity].
Qed.

(** X15: a call without a resolved tool or invocation makes [execute]
    throw the precondition fault with nothing published, stored or
    recorded; and a fault leaves [execute] only as that fault, or as the
    fault that the classifier throws in the [catch] clause on a caught
    value without a string conversion while the token is not aborted. *)
Theorem faults_that_leave_execute env context w :
  (tool (call context) = None \/ invocation (call context) = None ->
   execute env context w = (Throw (precondition_fault (call context)), w))
  /\ (forall f w',
        execute env context w = (Throw f, w') ->
        ((tool (call context) = None \/ invocation (call context) = None)
         /\ f = precondition_fault (call context) /\ w' = w)
        \/ (exists t i g,
              tool (call context) = Some t
              /\ invocation (call context) = Some i
              /\ caught_fault env context t i = Some g
              /\ signal context InHandler = false
              /\ getToolErrorMessage g = Throw f)).
Proof.
  split.
  - intros [H|H]; unfold execute; rewrite H.
    + reflexivity.
    + destruct (tool (call context)); reflexivity.
  - intros f w' H.
    destruct (tool (call context)) as [t|] eqn:Ht.
    + destruct (invocation (call context)) as [i|] eqn:Hi.
      * right. exists t, i.
        destruct (handler_returns env context t i) eqn:Hret.
        -- destruct (execute_returns env context t i w Ht Hi Hret)
             as (c & w1 & Hc & _).
           rewrite Hc in H. discriminate.
        -- destruct (execute_throws env context t i w Ht Hi Hret)
             as (g & e & w1 & Hcf & Hab & Hm & He).
           rewrite He in H. injection H as <- _.
           exists g. auto.
      * left. unfold execute in H. rewrite Ht, Hi in H.
        injection H as <- <-. auto.
    + left. unfold execute in H. rewrite Ht in H.
      injection H as <- <-. auto.
Qed.

Lemma faults_that_leave_execute_witness :
  execute (sample_env (sample_config true 500 5) 5000 (settles (text_result "ok")))
    (mkContext unresolved_call never_aborted false) initial_world
  = (Throw (ThrownError (IsError
       "Cannot execute tool call call-1: Tool or Invocation missing.")),
     initial_world)
  /\ (((tool unresolved_call = None \/ invocation unresolved_call = None)
       /\ precondition_fault unresolved_call
          = precondition_fault unresolved_call
       /\ initial_world = initial_world)
      \/ (exists t i g,
            tool unresolved_call = Some t
            /\ invocation unresolved_call = Some i
            /\ caught_fault
                 (sample_env (sample_config true 500 5) 5000
                    (settles (text_result "ok")))
                 (mkContext unresolved_call never_aborted false) t i
               = Some g
            /\ never_aborted InHandler = false
            /\ getToolErrorMessage g
               = Throw (precondition_fault unresolved_call))).
Proof.
  pose (H := faults_that_leave_execute
               (sample_env (sample_config true 500 5) 5000
                  (settles (text_result "ok")))
               (mkContext unresolved_call never_aborted false)
               initial_world).
  split.
  - exact (proj1 H (or_introl eq_refl)).
  - exact (proj2 H _ _ (proj1 H (or_introl eq_refl))).
Defined.

(** ** Race resolution *)

(** C1: when the token is aborted at the checkpoint that follows the
    settlement of the invocation (after the await, or in the catch clause
    when it threw), [execute] returns a cancelled call, whatever the
    invocation produced: a success payload, an error descriptor or a
    thrown fault; its response error text is the fixed cancellation
    message. *)
Theorem cancellation_wins env context t i w :
  tool (call context) = Some t ->
  invocation (call context) = Some i ->
  signal context (first_checkpoint (settlement env context t i)) = true ->
  exists c w',
    execute env context w = (Normal c, w')
    /\ status c = Cancelled
    /\ response_error c =
         Some "[Operation Cancelled] User cancelled tool execution.".
Proof.
  intros Ht Hi Hab. rewrite (execute_eq env context t i w Ht Hi). cbn zeta.
  destruct (settlement env context t i) as [r|f]; cbn [first_checkpoint] in Hab.
  - rewrite Hab.
    match goal with
    | |- context [createCancelledResult _ _ _ ?w0] =>
        destruct (createCancelledResult_normal env (call context)
                    cancel_reason t i w0 Ht Hi) as (c & Hc & Hs & He & _)
    end.
    exists c. eexists. rewrite Hc. repeat split; auto.
  - assert (Hret : signal context InHandler || classifies f = true)
      by (rewrite Hab; reflexivity).
    destruct (catch_clause_normal env context t i f
                (settled_world env context t i w) Ht Hi Hret)
      as (c & Hc & Hs & _ & He & _).
    rewrite Hab in Hs. exists c. eexists. split; [exact Hc|].
    split; [exact Hs|]. exact (He Hab).
Qed.

Lemma cancellation_wins_witness :
  exists c w',
    execute (sample_env (sample_config true 500 5) 5000
               (rejects (ThrownValue (JsString "spawn failed"))))
      (mkContext (shell_call (Some 1000)) always_aborted false) initial_world
    = (Normal c, w')
    /\ status c = Cancelled
    /\ response_error c =
         Some "[Operation Cancelled] User cancelled tool execution.".
Proof.
  apply (cancellation_wins _ _ shell_tool shell_invocation); reflexivity.
Defined.



(** ** Error classification *)

Lemma error_result_of_descriptor env context t i w r d :
  tool (call context) = Some t ->
  invocation (call context) = Some i ->
  settlement env context t i = Normal r ->
  tr_error r = Some d ->
  signal context AfterAwait = false ->
  exists c w',
    execute env context w = (Normal c, w')
    /\ status c = Error
    /\ response_error c = Some (ed_message d)
    /\ response_display c = Some (nullish (tr_returnDisplay r) (ed_message d))
    /\ response_errorType c = ed_type d.
Proof.
  intros Ht Hi Hs Hd Hab. rewrite (execute_eq env context t i w Ht Hi).
  cbn zeta. rewrite Hs, Hab, Hd. eexists. eexists.
  split; [reflexivity|]. repeat split.
Qed.

Lemma error_result_of_fault env context t i w f m :
  tool (call context) = Some t ->
  invocation (call context) = Some i ->
  settlement env context t i = Throw f ->
  signal context InHandler = false ->
  getToolErrorMessage f = Normal m ->
  exists c w',
    execute env context w = (Normal c, w')
    /\ status c = Error
    /\ response_error c = Some (message m)
    /\ response_display c = Some (display m)
    /\ response_errorType c =
         Some (nullish (errorType m) UNHANDLED_EXCEPTION).
Proof.
  intros Ht Hi Hs Hab Hm. rewrite (execute_eq env context t i w Ht Hi).
  cbn zeta. rewrite Hs.
  assert (Hret : signal context InHandler || classifies f = true)
    by (unfold classifies; rewrite Hm; apply orb_true_r).
  destruct (catch_clause_normal env context t i f
              (settled_world env context t i w) Ht Hi Hret)
    as (c & Hc & Hst & _ & _ & He).
  rewrite Hab in Hst. destruct (He Hab m Hm) as (H1 & H2 & H3).
  exists c. eexists. split; [exact Hc|]. auto.
Qed.

(** C4: the classifier hands a structured fault's message, display text
    and kind through as they are, and gives any other fault its textual
    representation as message and as display, with no kind of its own
    (the executor then files it as unhandled); where the fault has no
    textual representation the classifier throws what the conversion
    throws.  In the error call built from a classified thrown fault or
    from an error-bearing result the function response's error is the
    message and the result display is the display text. *)
Theorem error_payload_keeps_message_and_display env context t i w :
  tool (call context) = Some t ->
  invocation (call context) = Some i ->
  (forall e,
     getToolErrorMessage (ThrownError (IsToolExecutionError e))
     = Normal {| message := te_message e;
                 display := nullish (te_returnDisplay e) (te_message e);
                 errorType := te_errorType e |})
  /\ (forall f,
        is_structured f = false ->
        getToolErrorMessage f = unstructured (textual f))
  /\ (forall f m,
        settlement env context t i = Throw f ->
        signal context InHandler = false ->
        getToolErrorMessage f = Normal m ->
        exists c w',
          execute env context w = (Normal c, w')
          /\ status c = Error
          /\ response_error c = Some (message m)
          /\ response_display c = Some (display m)
          /\ response_errorType c =
               Some (if is_structured f
                     then nullish (errorType m) UNHANDLED_EXCEPTION
                     else UNHANDLED_EXCEPTION))
  /\ (forall r d,
        settlement env context t i = Normal r ->
        tr_error r = Some d ->
        signal context AfterAwait = false ->
        exists c w',
          execute env context w = (Normal c, w')
          /\ status c = Error
          /\ response_error c = Some (ed_message d)
          /\ response_display c =
               Some (nullish (tr_returnDisplay r) (ed_message d))
          /\ response_errorType c = ed_type d).
Proof.
  intros Ht Hi. repeat split.
  - intros [[e|m]|v] Hf; try discriminate; reflexivity.
  - intros f m Hs Hab Hm.
    destruct (error_result_of_fault env context t i w f m Ht Hi Hs Hab Hm)
      as (c & w' & Hc & H1 & H2 & H3 & H4).
    exists c, w'. repeat split; auto. rewrite H4.
    destruct f as [[e|m0]|v]; cbn [is_structured]; [reflexivity| |].
    + cbn in Hm. injection Hm as <-. reflexivity.
    + cbn in Hm. unfold and_then in Hm.
      destruct (String_of v); [|discriminate].
      injection Hm as <-. reflexivity.
  - intros r d Hs Hd Hab.
    exact (error_result_of_descriptor env context t i w r d Ht Hi Hs Hd Hab).
Qed.

Lemma error_payload_keeps_message_and_display_witness :
  (exists c w',
     execute
       (sample_env (sample_config true 500 5) 5000
          (rejects (ThrownError (IsToolExecutionError
             (mkToolExecutionError "EACCES: /etc/shadow"
                (Some "Permission denied") (Some PERMISSION_DENIED))))))
       (mkContext (shell_call (Some 1000)) never_aborted false) initial_world
     = (Normal c, w')
     /\ status c = Error
     /\ response_error c = Some "EACCES: /etc/shadow"
     /\ response_display c = Some "Permission denied"
     /\ response_errorType c = Some PERMISSION_DENIED)
  /\ (exists c w',
        execute
          (sample_env (sample_config true 500 5) 5000 (settles failed_result))
          (mkContext (reader_call (Some 1000)) never_aborted false)
          initial_world
        = (Normal c, w')
        /\ status c = Error
        /\ response_error c = Some "ENOENT: no such file"
        /\ response_display c = Some "File not found"
        /\ response_errorType c = Some INVALID_TOOL_PARAMS)
  /\ getToolErrorMessage (ThrownValue JsUndefined)
     = Normal {| message := "undefined"; display := "undefined";
                 errorType := None |}.
Proof.
  split; [|split].
  - exact (proj1 (proj2 (proj2
      (error_payload_keeps_message_and_display
         (sample_env (sample_config true 500 5) 5000
            (rejects (ThrownError (IsToolExecutionError
               (mkToolExecutionError "EACCES: /etc/shadow"
                  (Some "Permission denied") (Some PERMISSION_DENIED))))))
         (mkContext (shell_call (Some 1000)) never_aborted false)
         shell_tool shell_invocation initial_world eq_refl eq_refl)))
      _ _ eq_refl eq_refl eq_refl).
  - exact (proj2 (proj2 (proj2
      (error_payload_keeps_message_and_display
         (sample_env (sample_config true 500 5) 5000 (settles failed_result))
         (mkContext (reader_call (Some 1000)) never_aborted false)
         reader_tool reader_invocation initial_world eq_refl eq_refl)))
      _ _ eq_refl eq_refl eq_refl).
  - exact (proj1 (proj2
      (error_payload_keeps_message_and_display
         (sample_env (sample_config true 500 5) 5000 (settles failed_result))
         (mkContext (reader_call (Some 1000)) never_aborted false)
         reader_tool reader_invocation initial_world eq_refl eq_refl))
      (ThrownValue JsUndefined) eq_refl).
Defined.

(** ** Faults while the success result is built *)

(** A fault of the artifact store leaves [createSuccessResult] as it is. *)
Lemma store_fault_propagates env c r w text f :
  llmContent r = TextContent text ->
  truncation_enabled env (name (request c)) = true ->
  getTruncateToolOutputThreshold (config env) < strlen text ->
  saveTruncatedToolOutput env text (name (request c)) (callId (request c))
    (getProjectTempDir (config env)) = Throw f ->
  fst (createSuccessResult env c r w) = Throw f.
Proof.
  intros Hc Hen Hlen Hsave.
  unfold createSuccessResult. unfold bind at 1. rewrite govern_eq.
  rewrite Hc. cbn zeta. rewrite Hen.
  assert (Hgt : (strlen text >? getTruncateToolOutputThreshold (config env))
                = true) by (apply Z.gtb_lt; exact Hlen).
  rewrite Hgt. cbn [andb]. rewrite Hsave. reflexivity.
Qed.

(** So does a fault of the transcript conversion. *)
Lemma convert_fault_propagates env c r w content file w1 f :
  govern env c r w = (Normal (content, file), w1) ->
  convertToFunctionResponse env (name (request c)) (callId (request c))
    content (getActiveModel (config env)) = Throw f ->
  fst (createSuccessResult env c r w) = Throw f.
Proof.
  intros Hg Hconv. unfold createSuccessResult. unfold bind at 1.
  rewrite Hg. unfold bind, lift. cbn [fst snd]. rewrite Hconv. reflexivity.
Qed.



(** ** Output governance *)

Lemma createSuccessResult_ungoverned env c r w t i parts :
  tool c = Some t ->
  invocation c = Some i ->
  govern env c r w = (Normal (llmContent r, None), w) ->
  convertToFunctionResponse env (name (request c)) (callId (request c))
    (llmContent r) (getActiveModel (config env)) = Normal parts ->
  exists c',
    createSuccessResult env c r w = (Normal c', w)
    /\ status c' = Success
    /\ response_parts c' = parts
    /\ response_outputFile c' = None
    /\ response_contentLength c' = content_length (llmContent r).
Proof.
  intros Ht Hi Hg Hconv. unfold createSuccessResult. unfold bind at 1.
  rewrite Hg. unfold bind, lift. cbn [fst snd]. rewrite Hconv, Ht, Hi.
  eexists. split; [reflexivity|]. repeat split.
Qed.

(** C7: with a threshold or a number of preview lines that is zero or
    negative the governor does nothing, whatever the content and its
    length: nothing is stored or logged, the response is built from the
    content as the tool returned it and carries no artifact reference. *)
Theorem governance_disabled_by_limits env c r w t i parts :
  tool c = Some t ->
  invocation c = Some i ->
  getTruncateToolOutputThreshold (config env) <= 0
    \/ getTruncateToolOutputLines (config env) <= 0 ->
  convertToFunctionResponse env (name (request c)) (callId (request c))
    (llmContent r) (getActiveModel (config env)) = Normal parts ->
  govern env c r w = (Normal (llmContent r, None), w)
  /\ exists c',
       createSuccessResult env c r w = (Normal c', w)
       /\ status c' = Success
       /\ response_parts c' = parts
       /\ response_outputFile c' = None
       /\ response_contentLength c' = content_length (llmContent r).
Proof.
  intros Ht Hi Hlim Hconv.
  assert (Hg : govern env c r w = (Normal (llmContent r, None), w)).
  { rewrite govern_eq. destruct (llmContent r) as [text|ps]; [|reflexivity].
    cbn zeta. unfold truncation_enabled.
    assert (Hoff : (getTruncateToolOutputThreshold (config env) >? 0)
                   && (getTruncateToolOutputLines (config env) >? 0) = false).
    { destruct Hlim as [H|H].
      - replace (getTruncateToolOutputThreshold (config env) >? 0) with false
          by (symmetry; rewrite Z.gtb_ltb; apply Z.ltb_ge; exact H).
        reflexivity.
      - replace (getTruncateToolOutputLines (config env) >? 0) with false
          by (symmetry; rewrite Z.gtb_ltb; apply Z.ltb_ge; exact H).
        apply andb_false_r. }
    rewrite <- !andb_assoc. rewrite (andb_assoc (_ >? 0) (_ >? 0)).
    rewrite Hoff. cbn [andb]. rewrite !andb_false_r. reflexivity. }
  split; [exact Hg|].
  exact (createSuccessResult_ungoverned env c r w t i parts Ht Hi Hg Hconv).
Qed.

Lemma governance_disabled_by_limits_witness :
  govern (sample_env (sample_config true 0 5) 5000 (settles failed_result))
    (shell_call None) (text_result (repeated (100 * 100) "x")) initial_world
  = (Normal (TextContent (repeated (100 * 100) "x"), None), initial_world)
  /\ exists c',
       createSuccessResult
         (sample_env (sample_config true 0 5) 5000 (settles failed_result))
         (shell_call None) (text_result (repeated (100 * 100) "x")) initial_world
       = (Normal c', initial_world)
       /\ status c' = Success
       /\ response_parts c'
          = [FunctionResponsePart
               (mkFunctionResponse "call-1" "run_shell_command"
                  [("output", repeated (100 * 100) "x")])]
       /\ response_outputFile c' = None
       /\ response_contentLength c' = Some 10000.
Proof.
  apply (governance_disabled_by_limits
           (sample_env (sample_config true 0 5) 5000 (settles failed_result))
           (shell_call None) (text_result (repeated (100 * 100) "x")) initial_world
           shell_tool shell_invocation).
  - reflexivity.
  - reflexivity.
  - left. simpl. lia.
  - reflexivity.
Defined.

(** C9: for a tool other than the shell tool, or with output truncation
    switched off, the governor does nothing, whatever the content, its
    length, the threshold and the number of preview lines: nothing is
    stored or logged, the response is built from the content as the tool
    returned it and carries no artifact reference. *)
Theorem governance_only_for_enabled_shell env c r w t i parts :
  tool c = Some t ->
  invocation c = Some i ->
  name (request c) <> SHELL_TOOL_NAME env
    \/ getEnableToolOutputTruncation (config env) = false ->
  convertToFunctionResponse env (name (request c)) (callId (request c))
    (llmContent r) (getActiveModel (config env)) = Normal parts ->
  govern env c r w = (Normal (llmContent r, None), w)
  /\ exists c',
       createSuccessResult env c r w = (Normal c', w)
       /\ status c' = Success
       /\ response_parts c' = parts
       /\ response_outputFile c' = None
       /\ response_contentLength c' = content_length (llmContent r).
Proof.
  intros Ht Hi Hoff Hconv.
  assert (Hg : govern env c r w = (Normal (llmContent r, None), w)).
  { rewrite govern_eq. destruct (llmContent r) as [text|ps]; [|reflexivity].
    cbn zeta. unfold truncation_enabled.
    destruct Hoff as [H|H].
    - apply String.eqb_neq in H. rewrite H. reflexivity.
    - rewrite H. rewrite andb_false_r. reflexivity. }
  split; [exact Hg|].
  exact (createSuccessResult_ungoverned env c r w t i parts Ht Hi Hg Hconv).
Qed.

Lemma governance_only_for_enabled_shell_witness :
  govern (sample_env (sample_config true 500 5) 5000 (settles failed_result))
    (reader_call None) (text_result (repeated 1000 "x")) initial_world
  = (Normal (TextContent (repeated 1000 "x"), None), initial_world)
  /\ exists c',
       createSuccessResult
         (sample_env (sample_config true 500 5) 5000 (settles failed_result))
         (reader_call None) (text_result (repeated 1000 "x")) initial_world
       = (Normal c', initial_world)
       /\ status c' = Success
       /\ response_parts c'
          = [FunctionResponsePart
               (mkFunctionResponse "call-2" "read_file"
                  [("output", repeated 1000 "x")])]
       /\ response_outputFile c' = None
       /\ response_contentLength c' = Some 1000.
Proof.
  apply (governance_only_for_enabled_shell
           (sample_env (sample_config true 500 5) 5000 (settles failed_result))
           (reader_call None) (text_result (repeated 1000 "x")) initial_world
           reader_tool reader_invocation).
  - reflexivity.
  - reflexivity.
  - left. discriminate.
  - reflexivity.
Defined.

(** The claim as the specification words it fails for a tool that is not
    the shell tool: 1000 characters against a threshold of 500 and 5
    preview lines come back whole, with no artifact reference and no
    telemetry record. *)
Lemma governs_as_stated_fails :
  ~ governs_as_stated
      (sample_env (sample_config true 500 5) 5000 (settles failed_result))
      (reader_call None) (text_result (repeated 1000 "x")).
Proof.
  intro H.
  destruct (H (repeated 1000 "x") _ _ eq_refl eq_refl eq_refl eq_refl eq_refl)
    as (_ & (file & Hfile) & _).
  discriminate Hfile.
Qed.

(** C3, amended: for the shell tool with output truncation enabled, a
    positive threshold and a positive number of preview lines, a textual
    content longer than the threshold is handed to the artifact store and,
    when the store and the transcript conversion return, replaced by the
    stub of the formatter: the success response is converted from the
    stub, carries the stored file as artifact reference and the stub's
    length as content length (below the original length whenever the stub
    is shorter than the content), and one telemetry record is logged with
    the original length, the stub's length, the threshold and the number
    of lines. *)
Theorem governance_truncates_shell_output env c r w t i text file parts :
  tool c = Some t ->
  invocation c = Some i ->
  llmContent r = TextContent text ->
  name (request c) = SHELL_TOOL_NAME env ->
  getEnableToolOutputTruncation (config env) = true ->
  0 < getTruncateToolOutputThreshold (config env) ->
  0 < getTruncateToolOutputLines (config env) ->
  getTruncateToolOutputThreshold (config env) < strlen text ->
  saveTruncatedToolOutput env text (name (request c)) (callId (request c))
    (getProjectTempDir (config env)) = Normal file ->
  convertToFunctionResponse env (name (request c)) (callId (request c))
    (TextContent
       (formatTruncatedToolOutput env text file
          (getTruncateToolOutputLines (config env))))
    (getActiveModel (config env)) = Normal parts ->
  let stub :=
    formatTruncatedToolOutput env text file
      (getTruncateToolOutputLines (config env)) in
  exists c' w',
    createSuccessResult env c r w = (Normal c', w')
    /\ status c' = Success
    /\ response_parts c' = parts
    /\ response_outputFile c' = Some file
    /\ response_contentLength c' = Some (strlen stub)
    /\ (strlen stub < strlen text ->
        exists n, response_contentLength c' = Some n /\ n < strlen text)
    /\ artifacts w' =
         (artifacts w ++
            [mkSaveRequest text (name (request c)) (callId (request c))
               (getProjectTempDir (config env))])%list
    /\ telemetry w' =
         (telemetry w ++
            [{| ev_prompt_id := prompt_id (request c);
                ev_toolName := name (request c);
                originalContentLength := strlen text;
                truncatedContentLength := strlen stub;
                ev_threshold := getTruncateToolOutputThreshold (config env);
                ev_lines := getTruncateToolOutputLines (config env) |}])%list.
Proof.
  intros Ht Hi Hc Hname Hen Hth Hlines Hlen Hsave Hconv stub.
  unfold createSuccessResult. unfold bind at 1. rewrite govern_eq.
  rewrite Hc. cbn zeta. unfold truncation_enabled.
  rewrite Hname, String.eqb_refl, Hen.
  assert (H1 : (getTruncateToolOutputThreshold (config env) >? 0) = true)
    by (apply Z.gtb_lt; exact Hth).
  assert (H2 : (getTruncateToolOutputLines (config env) >? 0) = true)
    by (apply Z.gtb_lt; exact Hlines).
  assert (H3 : (strlen text >? getTruncateToolOutputThreshold (config env))
               = true) by (apply Z.gtb_lt; exact Hlen).
  rewrite H1, H2, H3. cbn [andb]. rewrite <- Hname, Hsave.
  unfold bind, lift. cbn [fst snd]. rewrite Hconv, Ht, Hi.
  eexists. eexists. split; [reflexivity|].
  repeat split.
  intro Hshort. exists (strlen stub). split; [reflexivity|exact Hshort].
Qed.

Lemma governance_truncates_shell_output_witness :
  exists c' w',
    createSuccessResult
      (sample_env (sample_config true 500 5) 5000 (settles failed_result))
      (shell_call None) (text_result (repeated 1000 "x")) initial_world
    = (Normal c', w')
    /\ status c' = Success
    /\ response_parts c'
       = [FunctionResponsePart
            (mkFunctionResponse "call-1" "run_shell_command"
               [("output",
                 "Output truncated, full output saved to: /tmp/project/run_shell_command_call-1.output")])]
    /\ response_outputFile c'
       = Some "/tmp/project/run_shell_command_call-1.output"
    /\ response_contentLength c' = Some 84
    /\ (84 < 1000 ->
        exists n, response_contentLength c' = Some n /\ n < 1000)
    /\ artifacts w'
       = [mkSaveRequest (repeated 1000 "x") "run_shell_command" "call-1"
            "/tmp/project"]
    /\ telemetry w'
       = [mkTruncatedEvent "prompt-1" "run_shell_command" 1000 84 500 5].
Proof.
  exact (governance_truncates_shell_output
           (sample_env (sample_config true 500 5) 5000 (settles failed_result))
           (shell_call None) (text_result (repeated 1000 "x")) initial_world
           shell_tool shell_invocation (repeated 1000 "x")
           "/tmp/project/run_shell_command_call-1.output"
           _ eq_refl eq_refl eq_refl eq_refl eq_refl eq_refl eq_refl eq_refl
           eq_refl eq_refl).
Defined.

(** The executor puts no bound of its own on the stub: with the sample
    formatter, two characters against a threshold of one come back as a
    longer content. *)
Remark stub_may_be_longer :
  exists c' w',
    createSuccessResult
      (sample_env (sample_config true 1 5) 5000 (settles failed_result))
      (shell_call None) (text_result "ab") initial_world
    = (Normal c', w')
    /\ response_contentLength c' = Some 84.
Proof.
  eexists. eexists. split; reflexivity.
Qed.

(** ** The process-identity callback *)

Lemma createSuccessResult_published env c r w :
  published (snd (createSuccessResult env c r w)) = published w.
Proof.
  unfold createSuccessResult. unfold bind at 1. rewrite govern_eq.
  destruct (llmContent r) as [text|ps]; cbn zeta.
  - destruct (_ && _).
    + destruct (saveTruncatedToolOutput env _ _ _ _); [|reflexivity].
      finish_build env c.
    + finish_build env c.
  - finish_build env c.
Qed.

Lemma catch_clause_published env context f w :
  published (snd (catch_clause env context f w)) = published w.
Proof.
  unfold catch_clause. destruct (signal context InHandler).
  - unfold createCancelledResult.
    destruct (tool (call context)), (invocation (call context)); reflexivity.
  - destruct (getToolErrorMessage f); reflexivity.
Qed.

(** What one execution hands to the notifier: the executing calls of the
    callback events, and nothing else. *)
Lemma execute_published env context t i w :
  tool (call context) = Some t ->
  invocation (call context) = Some i ->
  published (snd (execute env context w))
  = (published w ++
       (if instanceof_ShellToolInvocation i
        then map (executingCall (call context) t i)
               (pids_of (hk_events (hook_run env context t i)))
        else []))%list.
Proof.
  intros Ht Hi. rewrite (execute_eq env context t i w Ht Hi). cbn zeta.
  destruct (settlement env context t i) as [r|f].
  - destruct (signal context AfterAwait).
    + unfold createCancelledResult. rewrite Ht, Hi. reflexivity.
    + destruct (tr_error r); [reflexivity|].
      match goal with
      | |- context [createSuccessResult env (call context) r ?w0] =>
          pose proof (createSuccessResult_published env (call context) r w0)
            as Hp;
          destruct (createSuccessResult env (call context) r w0)
            as [[c|f] w3]
      end; cbn [snd] in Hp.
      * cbn [snd]. rewrite Hp. reflexivity.
      * rewrite catch_clause_published, Hp. reflexivity.
  - rewrite catch_clause_published. reflexivity.
Qed.

Lemma executing_count_app w l :
  List.length (filter is_executing (published w ++ l))
  = (executing_count w + List.length (filter is_executing l))%nat.
Proof.
  unfold executing_count. rewrite filter_app, length_app. reflexivity.
Qed.

Lemma executing_calls_all_executing c t i ps :
  filter is_executing (map (executingCall c t i) ps)
  = map (executingCall c t i) ps.
Proof.
  induction ps as [|p ps IH]; [reflexivity|].
  cbn [map filter]. cbn [is_executing executingCall status]. rewrite IH.
  reflexivity.
Qed.

(** An invocation layer that invokes the callback twice makes one
    execution publish two executing calls. *)
Lemma executing_at_most_once_fails :
  ~ executing_at_most_once
      (sample_env (sample_config true 500 5) 5000
         (reports_twice (text_result "ok")))
      (mkContext (shell_call (Some 1000)) never_aborted true).
Proof.
  unfold executing_at_most_once. vm_compute. lia.
Qed.

(** C5, amended: every invocation of the process-identity callback hands
    the notifier exactly one call, synchronously: the original call with
    status executing, the process identity, and the start time as it was
    recorded; [execute] supplies the callback for shell invocations only,
    and one execution publishes as many executing calls as the invocation
    layer invokes the callback (at most one exactly when it invokes it at
    most once). *)
Theorem process_identity_callback_publishes env context t i w :
  tool (call context) = Some t ->
  invocation (call context) = Some i ->
  (forall p w0,
     setPidCallback (call context) t i p w0
     = (Normal tt,
        mkWorld (published w0 ++ [executingCall (call context) t i p])
                (forwarded w0) (artifacts w0) (telemetry w0) (span w0)))
  /\ (forall p,
        status (executingCall (call context) t i p) = Executing
        /\ startTime (executingCall (call context) t i p)
           = startTime (call context)
        /\ pid (executingCall (call context) t i p) = Some p
        /\ request (executingCall (call context) t i p)
           = request (call context))
  /\ published (snd (execute env context w))
     = (published w ++
          (if instanceof_ShellToolInvocation i
           then map (executingCall (call context) t i)
                  (pids_of (hk_events (hook_run env context t i)))
           else []))%list
  /\ executing_count (snd (execute env context w))
     = (executing_count w +
          (if instanceof_ShellToolInvocation i
           then List.length (pids_of (hk_events (hook_run env context t i)))
           else 0))%nat.
Proof.
  intros Ht Hi. split; [reflexivity|]. split; [intro p; repeat split|].
  pose proof (execute_published env context t i w Ht Hi) as Hp.
  split; [exact Hp|].
  unfold executing_count at 1. rewrite Hp, executing_count_app.
  destruct (instanceof_ShellToolInvocation i); [|reflexivity].
  rewrite executing_calls_all_executing, length_map. reflexivity.
Qed.

Lemma process_identity_callback_publishes_witness :
  published
    (snd (execute
            (sample_env (sample_config true 500 5) 5000
               (reports_twice (text_result "ok")))
            (mkContext (shell_call (Some 1000)) never_aborted true)
            initial_world))
  = [mkToolCall Executing shell_request (Some shell_tool)
       (Some shell_invocation) (Some 1000) None (Some 4242) None None;
     mkToolCall Executing shell_request (Some shell_tool)
       (Some shell_invocation) (Some 1000) None (Some 4243) None None].
Proof.
  exact (proj1 (proj2 (proj2
    (process_identity_callback_publishes
       (sample_env (sample_config true 500 5) 5000
          (reports_twice (text_result "ok")))
       (mkContext (shell_call (Some 1000)) never_aborted true)
       shell_tool shell_invocation initial_world eq_refl eq_refl)))).
Defined.


(** ** Durations *)

(** A recorded start time of 0 leaves the duration undefined. *)
Lemma duration_as_stated_fails :
  ~ duration_as_stated
      (sample_env (sample_config true 500 5) 5000 (settles (text_result "ok")))
      (mkContext (shell_call (Some 0)) never_aborted false).
Proof.
  intro H.
  destruct (H _ _ eq_refl) as ((Hnone & _) & _).
  specialize (Hnone eq_refl). discriminate Hnone.
Qed.

(** A clock reading below the recorded start time gives a negative
    duration: the executor subtracts without comparing. *)
Remark duration_follows_the_clock :
  exists c w',
    execute
      (sample_env (sample_config true 500 5) 5000 (settles (text_result "ok")))
      (mkContext (shell_call (Some 9000)) never_aborted false) initial_world
    = (Normal c, w')
    /\ durationMs c = Some (-4000).
Proof.
  eexists. eexists. split; [cbv; reflexivity|reflexivity].
Qed.

(** C6, amended: under the precondition every terminal call of [execute]
    (success, error or cancelled) has an undefined duration exactly when
    no start time was recorded or the recorded start time is 0 (the code
    tests the start time for truthiness); otherwise its duration is the
    clock reading minus the start time, which is non-negative exactly
    when the start time is not after the clock reading.  A terminal call
    is returned whenever the handler, if it runs, comes to build one. *)
Theorem terminal_duration env context t i w :
  tool (call context) = Some t ->
  invocation (call context) = Some i ->
  (forall c w',
     execute env context w = (Normal c, w') ->
     (status c = Success \/ status c = Error \/ status c = Cancelled)
     /\ (durationMs c = None <->
         startTime (call context) = None
         \/ startTime (call context) = Some 0)
     /\ (forall s,
           startTime (call context) = Some s -> s <> 0 ->
           durationMs c = Some (Date_now env - s)
           /\ (0 <= Date_now env - s <-> s <= Date_now env)))
  /\ (handler_returns env context t i = true ->
      exists c w', execute env context w = (Normal c, w')).
Proof.
  intros Ht Hi. split.
  - intros c w' Hc.
    destruct (execute_returned env context t i w c w' Ht Hi Hc)
      as (_ & H3 & Hd).
    split; [exact H3|].
    rewrite Hd. unfold duration.
    destruct (startTime (call context)) as [s|].
    + destruct (Z.eqb_spec s 0) as [->|Hne].
      * split; [split; auto|]. intros s' Hs' Hne'. congruence.
      * split.
        -- split; [discriminate|]. intros [H|H]; congruence.
        -- intros s' Hs' _. injection Hs' as <-. split; [reflexivity|lia].
    + split; [split; auto|]. intros s Hs. discriminate.
  - intro Hret.
    destruct (execute_returns env context t i w Ht Hi Hret)
      as (c & w' & Hc & _).
    exists c, w'. exact Hc.
Qed.

Lemma terminal_duration_witness :
  exists c w',
    execute
      (sample_env (sample_config true 500 5) 5000 (settles (text_result "ok")))
      (mkContext (shell_call (Some 1000)) never_aborted false) initial_world
    = (Normal c, w')
    /\ (status c = Success \/ status c = Error \/ status c = Cancelled)
    /\ (durationMs c = None <-> Some 1000 = None \/ Some 1000 = Some 0)
    /\ (forall s,
          Some 1000 = Some s -> s <> 0 ->
          durationMs c = Some (5000 - s)
          /\ (0 <= 5000 - s <-> s <= 5000)).
Proof.
  pose (H := terminal_duration
               (sample_env (sample_config true 500 5) 5000
                  (settles (text_result "ok")))
               (mkContext (shell_call (Some 1000)) never_aborted false)
               shell_tool shell_invocation initial_world eq_refl eq_refl).
  destruct (proj2 H eq_refl) as (c & w' & Hc).
  exists c, w'. split; [exact Hc|]. exact (proj1 H c w' Hc).
Defined.

(** * Further properties of the executor *)

(** ** Which builder made the terminal call *)

Lemma catch_clause_builds env context t i f w c w' :
  tool (call context) = Some t ->
  invocation (call context) = Some i ->
  catch_clause env context f w = (Normal c, w') ->
  (status c = Cancelled
   /\ signal context InHandler = true
   /\ forall w0,
        createCancelledResult env (call context) cancel_reason w0
        = (Normal c, w0))
  \/ (status c = Error
      /\ signal context InHandler = false
      /\ exists e,
           createErrorResult env (call context) (IsToolExecutionError e) None
           = Normal c).
Proof.
  intros Ht Hi. unfold catch_clause.
  destruct (signal context InHandler).
  - unfold createCancelledResult. rewrite Ht, Hi. unfold ret.
    intro H. injection H as <- _. left.
    split; [reflexivity|]. split; [reflexivity|]. intro w0. reflexivity.
  - destruct (getToolErrorMessage f) as [m|e]; [|discriminate].
    destruct (createErrorResult_returns env (call context)
                (mkToolExecutionError (message m) (Some (display m))
                   (Some (nullish (errorType m) UNHANDLED_EXCEPTION))) None)
      as (c1 & Hc1 & Hs & _).
    rewrite Hc1. intro H. injection H as <- _. right.
    split; [exact Hs|]. split; [reflexivity|]. eexists. exact Hc1.
Qed.

Lemma execute_builds env context t i w c w' :
  tool (call context) = Some t ->
  invocation (call context) = Some i ->
  execute env context w = (Normal c, w') ->
  (status c = Cancelled
   /\ forall w0,
        createCancelledResult env (call context) cancel_reason w0
        = (Normal c, w0))
  \/ (status c = Error
      /\ exists e,
           createErrorResult env (call context) (IsToolExecutionError e) None
           = Normal c)
  \/ (status c = Success
      /\ exists r w0 w1,
           createSuccessResult env (call context) r w0 = (Normal c, w1)).
Proof.
  intros Ht Hi Hrun.
  assert (Hcatch : forall f w0,
    catch_clause env context f w0 = (Normal c, w') ->
    (status c = Cancelled
     /\ forall w1,
          createCancelledResult env (call context) cancel_reason w1
          = (Normal c, w1))
    \/ (status c = Error
        /\ exists e,
             createErrorResult env (call context) (IsToolExecutionError e)
               None = Normal c)
    \/ (status c = Success
        /\ exists r w1 w2,
             createSuccessResult env (call context) r w1 = (Normal c, w2))).
  { intros f w0 H.
    destruct (catch_clause_builds env context t i f w0 c w' Ht Hi H)
      as [(Hs & _ & Hb)|(Hs & _ & Hb)]; auto. }
  destruct (execute_paths env context t i w Ht Hi)
    as [(f & _ & _ & He)
       |[(r & c1 & _ & _ & _ & Hb & He)
        |[(r & d & _ & _ & _ & _ & He)
         |[(r & c1 & w3 & _ & _ & _ & _ & Hb & He)
          |(r & f & w3 & _ & _ & _ & _ & _ & He)]]]];
    rewrite He in Hrun.
  - exact (Hcatch _ _ Hrun).
  - injection Hrun as <- _. left.
    unfold createCancelledResult in *. rewrite Ht, Hi in *. unfold ret in *.
    injection Hb as <-. split; [reflexivity|]. intro w0. reflexivity.
  - destruct (createErrorResult_returns env (call context)
                (mkToolExecutionError (ed_message d) (tr_returnDisplay r)
                   (ed_type d)) None) as (c1 & Hc1 & Hs & _).
    rewrite Hc1 in Hrun. injection Hrun as <- _. right. left.
    split; [exact Hs|]. eexists. exact Hc1.
  - injection Hrun as <- <-. right. right.
    split; [exact (proj1 (createSuccessResult_inv _ _ _ _ _ _ Hb))|].
    eexists. eexists. eexists. exact Hb.
  - exact (Hcatch _ _ Hrun).
Qed.

(** ** Where a terminal call comes from *)

(** X4: every terminal call of [execute] keeps the request and the
    confirmation outcome of the call it was given and its tool; its
    response is addressed to the request's call identifier; success and
    cancelled calls keep the invocation, the error call is built without
    it; the start time and the process identity are not carried over.  A
    terminal call is returned whenever the handler, if it runs, comes to
    build one. *)
Theorem terminal_call_provenance env context t i w :
  tool (call context) = Some t ->
  invocation (call context) = Some i ->
  (forall c w',
     execute env context w = (Normal c, w') ->
     request c = request (call context)
     /\ outcome c = outcome (call context)
     /\ tool c = Some t
     /\ invocation c = terminal_invocation (status c) i
     /\ startTime c = None
     /\ pid c = None
     /\ response_callId c = Some (callId (request (call context))))
  /\ (handler_returns env context t i = true ->
      exists c w', execute env context w = (Normal c, w')).
Proof.
  intros Ht Hi. split.
  - intros c w' Hc.
    destruct (execute_builds env context t i w c w' Ht Hi Hc)
      as [(Hs & Hb)|[(Hs & e & Hb)|(Hs & r & w0 & w1 & Hb)]].
    + rewrite Hs.
      specialize (Hb initial_world). unfold createCancelledResult in Hb.
      rewrite Ht, Hi in Hb. unfold ret in Hb. injection Hb as <-.
      repeat split.
    + rewrite Hs. cbn in Hb. injection Hb as <-.
      cbn. rewrite Ht. repeat split.
    + rewrite Hs.
      rewrite createSuccessResult_cases in Hb.
      destruct (govern env (call context) r w0) as [[g|f] w2];
        [|discriminate].
      destruct (convertToFunctionResponse env _ _ _ _); [|discriminate].
      rewrite Ht, Hi in Hb. injection Hb as <- _. repeat split.
  - intro Hret.
    destruct (execute_returns env context t i w Ht Hi Hret)
      as (c & w' & Hc & _).
    exists c, w'. exact Hc.
Qed.

Lemma terminal_call_provenance_witness :
  exists c w',
    execute
      (sample_env (sample_config true 500 5) 5000 (settles failed_result))
      (mkContext (reader_call (Some 1000)) never_aborted false) initial_world
    = (Normal c, w')
    /\ request c = reader_request
    /\ outcome c = None
    /\ tool c = Some reader_tool
    /\ invocation c = terminal_invocation (status c) reader_invocation
    /\ startTime c = None
    /\ pid c = None
    /\ response_callId c = Some "call-2".
Proof.
  pose (H := terminal_call_provenance
               (sample_env (sample_config true 500 5) 5000
                  (settles failed_result))
               (mkContext (reader_call (Some 1000)) never_aborted false)
               reader_tool reader_invocation initial_world eq_refl eq_refl).
  destruct (proj2 H eq_refl) as (c & w' & Hc).
  exists c, w'. split; [exact Hc|]. exact (proj1 H c w' Hc).
Defined.

(** ** The payloads of cancelled and error calls *)

(** X5: whichever test cancelled it, a cancelled call carries the same
    response: one function-response part with the fixed cancellation text
    under [error], no display text, no error object, no error kind, no
    artifact reference, and the length of that text (52) as content
    length. *)
Theorem cancelled_payload env context t i w c w' :
  tool (call context) = Some t ->
  invocation (call context) = Some i ->
  execute env context w = (Normal c, w') ->
  status c = Cancelled ->
  response c =
    Some {| ri_callId := callId (request (call context));
            responseParts :=
              [error_part (request (call context))
                 "[Operation Cancelled] User cancelled tool execution."];
            resultDisplay := None;
            ri_error := None;
            ri_errorType := None;
            outputFile := None;
            contentLength := Some 52 |}.
Proof.
  intros Ht Hi Hrun Hst.
  destruct (execute_builds env context t i w c w' Ht Hi Hrun)
    as [(_ & Hb)|[(Hs & _)|(Hs & _)]]; try congruence.
  specialize (Hb initial_world). unfold createCancelledResult in Hb.
  rewrite Ht, Hi in Hb. unfold ret in Hb. injection Hb as <-.
  reflexivity.
Qed.

Lemma cancelled_payload_witness :
  exists c w',
    execute
      (failing_store_env (sample_config true 500 5) 5000
         (settles (text_result (repeated 1000 "x"))))
      (mkContext (shell_call (Some 1000)) aborted_late false) initial_world
    = (Normal c, w')
    /\ status c = Cancelled
    /\ response c =
         Some {| ri_callId := "call-1";
                 responseParts :=
                   [error_part shell_request
                      "[Operation Cancelled] User cancelled tool execution."];
                 resultDisplay := None;
                 ri_error := None;
                 ri_errorType := None;
                 outputFile := None;
                 contentLength := Some 52 |}.
Proof.
  eexists. eexists. split; [cbv; reflexivity|]. split; [reflexivity|].
  exact (cancelled_payload
           (failing_store_env (sample_config true 500 5) 5000
              (settles (text_result (repeated 1000 "x"))))
           (mkContext (shell_call (Some 1000)) aborted_late false)
           shell_tool shell_invocation initial_world _ _
           eq_refl eq_refl eq_refl eq_refl).
Defined.

(** X6: an error call of [execute] always has a [ToolExecutionError]
    attached to its response, never a plain [Error], and the response is
    read off that object: the function response's error is its message,
    the display is its display text (its message when it has none), the
    kind is its kind, the content length is the length of its message;
    there is no artifact reference and no invocation. *)
Theorem error_payload_reads_off_error_object env context t i w c w' :
  tool (call context) = Some t ->
  invocation (call context) = Some i ->
  execute env context w = (Normal c, w') ->
  status c = Error ->
  exists e,
    response_errorObject c = Some (IsToolExecutionError e)
    /\ response_error c = Some (te_message e)
    /\ response_display c
       = Some (nullish (te_returnDisplay e) (te_message e))
    /\ response_errorType c = te_errorType e
    /\ response_contentLength c = Some (strlen (te_message e))
    /\ response_outputFile c = None
    /\ invocation c = None.
Proof.
  intros Ht Hi Hrun Hst.
  destruct (execute_builds env context t i w c w' Ht Hi Hrun)
    as [(Hs & _)|[(_ & e & He)|(Hs & _)]]; try congruence.
  exists e. cbn in He. injection He as <-. repeat split.
Qed.

Lemma error_payload_reads_off_error_object_witness :
  exists c w',
    execute
      (sample_env (sample_config true 500 5) 5000
         (rejects (ThrownValue (JsNumber 127 eq_refl))))
      (mkContext (shell_call (Some 1000)) never_aborted false) initial_world
    = (Normal c, w')
    /\ status c = Error
    /\ exists e,
         response_errorObject c = Some (IsToolExecutionError e)
         /\ response_error c = Some (te_message e)
         /\ response_display c
            = Some (nullish (te_returnDisplay e) (te_message e))
         /\ response_errorType c = te_errorType e
         /\ response_contentLength c = Some (strlen (te_message e))
         /\ response_outputFile c = None
         /\ invocation c = None.
Proof.
  eexists. eexists. split; [cbv; reflexivity|]. split; [reflexivity|].
  exact (error_payload_reads_off_error_object
           (sample_env (sample_config true 500 5) 5000
              (rejects (ThrownValue (JsNumber 127 eq_refl))))
           (mkContext (shell_call (Some 1000)) never_aborted false)
           shell_tool shell_invocation initial_world _ _
           eq_refl eq_refl eq_refl eq_refl).
Defined.

(** ** Live output *)

Lemma createSuccessResult_forwarded env c r w :
  forwarded (snd (createSuccessResult env c r w)) = forwarded w.
Proof.
  rewrite createSuccessResult_cases, govern_eq.
  destruct (llmContent r) as [text|ps]; cbn zeta.
  - destruct (_ && _).
    + destruct (saveTruncatedToolOutput env _ _ _ _); [|reflexivity].
      cbn [fst snd].
      destruct (convertToFunctionResponse env _ _ _ _); [|reflexivity].
      destruct (tool c), (invocation c); reflexivity.
    + cbn [fst snd].
      destruct (convertToFunctionResponse env _ _ _ _); [|reflexivity].
      destruct (tool c), (invocation c); reflexivity.
  - cbn [fst snd].
    destruct (convertToFunctionResponse env _ _ _ _); [|reflexivity].
    destruct (tool c), (invocation c); reflexivity.
Qed.

Lemma catch_clause_forwarded env context f w :
  forwarded (snd (catch_clause env context f w)) = forwarded w.
Proof.
  unfold catch_clause. destruct (signal context InHandler).
  - unfold createCancelledResult.
    destruct (tool (call context)), (invocation (call context)); reflexivity.
  - destruct (getToolErrorMessage f); reflexivity.
Qed.

(** X1: the chunks that the invocation layer streams reach the sink in
    the order they were raised, each tagged with the call identifier,
    exactly when the tool declares [canUpdateOutput] and a sink was
    supplied; otherwise nothing is forwarded.  The executor adds or drops
    no chunk, whatever the outcome of the call. *)
Theorem live_output_is_forwarded env context t i w :
  tool (call context) = Some t ->
  invocation (call context) = Some i ->
  forwarded (snd (execute env context w))
  = (forwarded w ++
       (if canUpdateOutput t && outputUpdateHandler context
        then map (pair (callId (request (call context))))
               (chunks_of (hk_events (hook_run env context t i)))
        else []))%list.
Proof.
  intros Ht Hi. rewrite (execute_eq env context t i w Ht Hi). cbn zeta.
  destruct (settlement env context t i) as [r|f].
  - destruct (signal context AfterAwait).
    + unfold createCancelledResult. rewrite Ht, Hi. reflexivity.
    + destruct (tr_error r); [reflexivity|].
      match goal with
      | |- context [createSuccessResult env (call context) r ?w0] =>
          pose proof (createSuccessResult_forwarded env (call context) r w0)
            as Hp;
          destruct (createSuccessResult env (call context) r w0)
            as [[c|f] w3]
      end; cbn [snd] in Hp.
      * cbn [snd]. rewrite Hp. reflexivity.
      * rewrite catch_clause_forwarded, Hp. reflexivity.
  - rewrite catch_clause_forwarded. reflexivity.
Qed.

Lemma live_output_is_forwarded_witness :
  forwarded
    (snd (execute
            (sample_env (sample_config true 500 5) 5000
               (mkHookRun [LiveOutput "a"; ProcessStarted 7; LiveOutput "b"]
                  (Throw (ThrownValue JsNull))))
            (mkContext (shell_call (Some 1000)) never_aborted true)
            initial_world))
  = [("call-1", "a"); ("call-1", "b")].
Proof.
  exact (live_output_is_forwarded
           (sample_env (sample_config true 500 5) 5000
              (mkHookRun [LiveOutput "a"; ProcessStarted 7; LiveOutput "b"]
                 (Throw (ThrownValue JsNull))))
           (mkContext (shell_call (Some 1000)) never_aborted true)
           shell_tool shell_invocation initial_world eq_refl eq_refl).
Defined.

(** ** The governor at and around the threshold *)

(** X2: a textual content whose length does not exceed the threshold
    (equality included) is left alone even for the shell tool with
    truncation enabled: nothing is stored or logged, the response is
    converted from the content as returned, with its length as content
    length and no artifact reference. *)
Theorem governance_spares_short_output env c r w t i text parts :
  tool c = Some t ->
  invocation c = Some i ->
  llmContent r = TextContent text ->
  strlen text <= getTruncateToolOutputThreshold (config env) ->
  convertToFunctionResponse env (name (request c)) (callId (request c))
    (TextContent text) (getActiveModel (config env)) = Normal parts ->
  exists c',
    createSuccessResult env c r w = (Normal c', w)
    /\ status c' = Success
    /\ response_parts c' = parts
    /\ response_outputFile c' = None
    /\ response_contentLength c' = Some (strlen text).
Proof.
  intros Ht Hi Hc Hlen Hconv.
  assert (Hg : govern env c r w = (Normal (llmContent r, None), w)).
  { rewrite govern_eq, Hc. cbn zeta.
    replace (strlen text >? getTruncateToolOutputThreshold (config env))
      with false
      by (symmetry; rewrite Z.gtb_ltb; apply Z.ltb_ge; exact Hlen).
    rewrite andb_false_r. reflexivity. }
  rewrite <- Hc in Hconv.
  destruct (createSuccessResult_ungoverned env c r w t i parts Ht Hi Hg Hconv)
    as (c' & H1 & H2 & H3 & H4 & H5).
  exists c'. rewrite Hc in H5. auto.
Qed.

Lemma governance_spares_short_output_witness :
  exists c',
    createSuccessResult
      (sample_env (sample_config true 500 5) 5000 (settles failed_result))
      (shell_call None) (text_result (repeated 500 "x")) initial_world
    = (Normal c', initial_world)
    /\ status c' = Success
    /\ response_parts c'
       = [FunctionResponsePart
            (mkFunctionResponse "call-1" "run_shell_command"
               [("output", repeated 500 "x")])]
    /\ response_outputFile c' = None
    /\ response_contentLength c' = Some 500.
Proof.
  apply (governance_spares_short_output
           (sample_env (sample_config true 500 5) 5000 (settles failed_result))
           (shell_call None) (text_result (repeated 500 "x")) initial_world
           shell_tool shell_invocation (repeated 500 "x")).
  - reflexivity.
  - reflexivity.
  - reflexivity.
  - vm_compute. discriminate.
  - reflexivity.
Defined.

(** The content that the governor returns is textual exactly when the
    content of the tool result is. *)
Lemma govern_keeps_kind env c r w content file w1 :
  govern env c r w = (Normal (content, file), w1) ->
  match llmContent r with
  | TextContent _ => exists text', content = TextContent text'
  | PartsContent ps => content = PartsContent ps /\ file = None /\ w1 = w
  end.
Proof.
  rewrite govern_eq. destruct (llmContent r) as [text|ps]; cbn zeta.
  - destruct (_ && _).
    + destruct (saveTruncatedToolOutput env _ _ _ _); [|discriminate].
      intro H. injection H as <- _ _. eexists. reflexivity.
    + intro H. injection H as <- _ _. eexists. reflexivity.
  - intro H. injection H as <- <- <-. auto.
Qed.

(** X3: the content length of a success response is undefined exactly
    when the tool returned a list of parts instead of a string; and such
    a content is never governed, whatever the tool and the
    configuration: nothing is stored or logged and no artifact reference
    is set. *)
Theorem content_length_defined_iff_textual env c r w c' w' :
  createSuccessResult env c r w = (Normal c', w') ->
  (response_contentLength c' = None
   <-> exists ps, llmContent r = PartsContent ps)
  /\ (forall ps,
        llmContent r = PartsContent ps ->
        w' = w /\ response_outputFile c' = None).
Proof.
  rewrite createSuccessResult_cases.
  destruct (govern env c r w) as [[[content file]|f] w1] eqn:Hg;
    [|discriminate].
  pose proof (govern_keeps_kind env c r w content file w1 Hg) as Hk.
  cbn [fst snd].
  destruct (convertToFunctionResponse env _ _ _ _); [|discriminate].
  destruct (tool c), (invocation c); try discriminate.
  intro H. injection H as <- <-.
  unfold response_contentLength, response_outputFile. cbn.
  destruct (llmContent r) as [text|ps].
  - destruct Hk as (text' & ->). cbn. split.
    + split; [discriminate|]. intros (ps & Hps). discriminate.
    + intros ps Hps. discriminate.
  - destruct Hk as (-> & -> & ->). cbn. split.
    + split; [eauto|reflexivity].
    + auto.
Qed.

Lemma content_length_defined_iff_textual_witness :
  exists c' w',
    createSuccessResult
      (sample_env (sample_config true 1 5) 5000 (settles failed_result))
      (shell_call None) parts_result initial_world
    = (Normal c', w')
    /\ (response_contentLength c' = None
        <-> exists ps, llmContent parts_result = PartsContent ps)
    /\ (forall ps,
          llmContent parts_result = PartsContent ps ->
          w' = initial_world /\ response_outputFile c' = None).
Proof.
  eexists. eexists. split; [cbv; reflexivity|].
  exact (content_length_defined_iff_textual
           (sample_env (sample_config true 1 5) 5000 (settles failed_result))
           (shell_call None) parts_result initial_world _ _ eq_refl).
Defined.

(** X12: on a success response the artifact reference and the effects of
    a truncation go together.  Without a reference nothing was stored and
    nothing was logged; with a reference the content was a string longer
    than the threshold, exactly one request went to the artifact store,
    which returned that reference, and exactly one telemetry record was
    logged. *)
Theorem artifact_reference_iff_truncation env c r w c' w' :
  createSuccessResult env c r w = (Normal c', w') ->
  (response_outputFile c' = None ->
   artifacts w' = artifacts w /\ telemetry w' = telemetry w)
  /\ (forall file,
        response_outputFile c' = Some file ->
        exists text,
          llmContent r = TextContent text
          /\ getTruncateToolOutputThreshold (config env) < strlen text
          /\ saveTruncatedToolOutput env text (name (request c))
               (callId (request c)) (getProjectTempDir (config env))
             = Normal file
          /\ artifacts w' = (artifacts w ++ [save_request env c text])%list
          /\ telemetry w'
             = (telemetry w ++ [truncation_event env c text file])%list).
Proof.
  rewrite createSuccessResult_cases, govern_eq.
  destruct (llmContent r) as [text|ps]; cbn zeta.
  - destruct (truncation_enabled env (name (request c))); cbn [andb].
    + destruct (strlen text >? _) eqn:Hgt.
      * destruct (saveTruncatedToolOutput env _ _ _ _) as [path|f] eqn:Hs;
          [|discriminate].
        cbn [fst snd].
        destruct (convertToFunctionResponse env _ _ _ _); [|discriminate].
        destruct (tool c), (invocation c); try discriminate.
        intro H. injection H as <- <-.
        unfold response_outputFile. cbn. split; [discriminate|].
        intros file Hf. injection Hf as <-.
        exists text. split; [reflexivity|].
        split; [apply Z.gtb_lt; exact Hgt|]. split; [exact Hs|].
        split; reflexivity.
      * cbn [fst snd].
        destruct (convertToFunctionResponse env _ _ _ _); [|discriminate].
        destruct (tool c), (invocation c); try discriminate.
        intro H. injection H as <- <-.
        unfold response_outputFile. cbn. split; [auto|discriminate].
    + cbn [fst snd].
      destruct (convertToFunctionResponse env _ _ _ _); [|discriminate].
      destruct (tool c), (invocation c); try discriminate.
      intro H. injection H as <- <-.
      unfold response_outputFile. cbn. split; [auto|discriminate].
  - cbn [fst snd].
    destruct (convertToFunctionResponse env _ _ _ _); [|discriminate].
    destruct (tool c), (invocation c); try discriminate.
    intro H. injection H as <- <-.
    unfold response_outputFile. cbn. split; [auto|discriminate].
Qed.

Lemma artifact_reference_iff_truncation_witness :
  exists c' w',
    createSuccessResult
      (sample_env (sample_config true 500 5) 5000 (settles failed_result))
      (shell_call None) (text_result (repeated 1000 "x")) initial_world
    = (Normal c', w')
    /\ response_outputFile c'
       = Some "/tmp/project/run_shell_command_call-1.output"
    /\ exists text,
         TextContent (repeated 1000 "x") = TextContent text
         /\ 500 < strlen text
         /\ sample_store text "run_shell_command" "call-1" "/tmp/project"
            = Normal "/tmp/project/run_shell_command_call-1.output"
         /\ artifacts w'
            = [mkSaveRequest text "run_shell_command" "call-1" "/tmp/project"]
         /\ telemetry w'
            = [mkTruncatedEvent "prompt-1" "run_shell_command"
                 (strlen text) 84 500 5].
Proof.
  eexists. eexists. split; [cbv; reflexivity|]. split; [reflexivity|].
  exact (proj2 (artifact_reference_iff_truncation
                  (sample_env (sample_config true 500 5) 5000
                     (settles failed_result))
                  (shell_call None) (text_result (repeated 1000 "x"))
                  initial_world _ _ eq_refl)
               _ eq_refl).
Defined.

(** ** The guards inside the builders *)

(** X13: for a call that passed the precondition of [execute] the guards
    inside the builders never fire: [createCancelledResult] always
    returns, and a fault of [createSuccessResult] is a fault of the
    artifact store or of the transcript conversion, never the builder's
    own "missing tool or invocation" error. *)
Theorem builder_guards_never_fire env c r w t i :
  tool c = Some t ->
  invocation c = Some i ->
  (forall reason w0,
     exists c', createCancelledResult env c reason w0 = (Normal c', w0))
  /\ (forall f w',
        createSuccessResult env c r w = (Throw f, w') ->
        (exists text,
           llmContent r = TextContent text
           /\ saveTruncatedToolOutput env text (name (request c))
                (callId (request c)) (getProjectTempDir (config env))
              = Throw f)
        \/ (exists content,
              convertToFunctionResponse env (name (request c))
                (callId (request c)) content (getActiveModel (config env))
              = Throw f)).
Proof.
  intros Ht Hi. split.
  - intros reason w0.
    destruct (createCancelledResult_normal env c reason t i w0 Ht Hi)
      as (c' & Hc & _).
    exists c'. exact Hc.
  - intros f w'. rewrite createSuccessResult_cases, govern_eq.
    destruct (llmContent r) as [text|ps]; cbn zeta.
    + destruct (_ && _).
      * destruct (saveTruncatedToolOutput env _ _ _ _) as [path|f0] eqn:Hs.
        -- cbn [fst snd].
           destruct (convertToFunctionResponse env _ _ _ _) eqn:Hconv.
           ++ rewrite Ht, Hi. discriminate.
           ++ intro H. injection H as <- _. right. eexists. exact Hconv.
        -- intro H. injection H as <- _. left. exists text. auto.
      * cbn [fst snd].
        destruct (convertToFunctionResponse env _ _ _ _) eqn:Hconv.
        -- rewrite Ht, Hi. discriminate.
        -- intro H. injection H as <- _. right. eexists. exact Hconv.
    + cbn [fst snd].
      destruct (convertToFunctionResponse env _ _ _ _) eqn:Hconv.
      * rewrite Ht, Hi. discriminate.
      * intro H. injection H as <- _. right. eexists. exact Hconv.
Qed.

Lemma builder_guards_never_fire_witness :
  exists w',
    createSuccessResult
      (failing_store_env (sample_config true 500 5) 5000
         (settles failed_result))
      (shell_call None) (text_result (repeated 1000 "x")) initial_world
    = (Throw (ThrownError (IsError "ENOSPC: no space left on device")), w')
    /\ ((exists text,
           TextContent (repeated 1000 "x") = TextContent text
           /\ failing_store text "run_shell_command" "call-1" "/tmp/project"
              = Throw (ThrownError
                         (IsError "ENOSPC: no space left on device")))
        \/ (exists content,
              sample_convert "run_shell_command" "call-1" content "model-1"
              = Throw (ThrownError
                         (IsError "ENOSPC: no space left on device")))).
Proof.
  eexists. split; [cbv; reflexivity|].
  exact (proj2 (builder_guards_never_fire
                  (failing_store_env (sample_config true 500 5) 5000
                     (settles failed_result))
                  (shell_call None) (text_result (repeated 1000 "x"))
                  initial_world shell_tool shell_invocation eq_refl eq_refl)
               _ _ eq_refl).
Defined.

(** ** The span metadata *)

(** X7: whatever metadata was there before, after an execution the span
    holds the request as input, the settled tool result as output (none
    when the invocation threw) and, as error, the fault that the catch
    clause received: the invocation's fault, or the fault raised while
    the success result was built; no error is recorded on the other
    paths. *)
Theorem span_records_run env context t i w :
  tool (call context) = Some t ->
  invocation (call context) = Some i ->
  span (snd (execute env context w))
  = {| sm_input := Some (request (call context));
       sm_output :=
         match settlement env context t i with
         | Normal r => Some r
         | Throw _ => None
         end;
       sm_error :=
         match settlement env context t i with
         | Throw f => Some f
         | Normal r =>
             if signal context AfterAwait then None
             else
               match tr_error r with
               | Some _ => None
               | None =>
                   match fst (createSuccessResult env (call context) r
                                initial_world) with
                   | Throw f => Some f
                   | Normal _ => None
                   end
               end
         end |}.
Proof.
  intros Ht Hi. unfold caught_fault.
  destruct (execute_paths env context t i w Ht Hi)
    as [(f & Hs & _ & He)
       |[(r & c1 & Hs & Hab & _ & _ & He)
        |[(r & d & Hs & Hab & Hd & _ & He)
         |[(r & c1 & w3 & Hs & Hab & Hd & _ & Hb & He)
          |(r & f & w3 & Hs & Hab & Hd & _ & Hb & He)]]]];
    rewrite He, Hs; try rewrite Hab; try rewrite Hd.
  - rewrite (catch_clause_world env context t i f _ Ht Hi). reflexivity.
  - reflexivity.
  - reflexivity.
  - rewrite (createSuccessResult_fst env (call context) r initial_world
               (with_output r (settled_world env context t i w))).
    pose proof (createSuccessResult_span env (call context) r
                  (with_output r (settled_world env context t i w))) as Hsp.
    rewrite Hb in *. cbn [fst snd] in *. rewrite Hsp. reflexivity.
  - rewrite (createSuccessResult_fst env (call context) r initial_world
               (with_output r (settled_world env context t i w))).
    pose proof (createSuccessResult_span env (call context) r
                  (with_output r (settled_world env context t i w))) as Hsp.
    rewrite Hb in *. cbn [fst snd] in *.
    rewrite (catch_clause_world env context t i f w3 Ht Hi).
    unfold with_error. cbn [span]. rewrite Hsp. reflexivity.
Qed.

Lemma span_records_run_witness :
  span
    (snd (execute
            (failing_convert_env (sample_config true 500 5) 5000
               (settles (text_result "ok")))
            (mkContext (shell_call (Some 1000)) never_aborted false)
            initial_world))
  = {| sm_input := Some shell_request;
       sm_output := Some (text_result "ok");
       sm_error := Some (ThrownValue (JsString "unsupported content")) |}.
Proof.
  exact (span_records_run
           (failing_convert_env (sample_config true 500 5) 5000
              (settles (text_result "ok")))
           (mkContext (shell_call (Some 1000)) never_aborted false)
           shell_tool shell_invocation initial_world eq_refl eq_refl).
Defined.

(** ** The artifact store and the telemetry across an execution *)

(** X8: an execution that does not reach the success builder (the
    invocation threw, the token was aborted at the test after the await,
    or the result carries an error descriptor) sends nothing to the
    artifact store and logs no truncation record, however long the
    content of the result is. *)
Theorem no_truncation_off_the_success_path env context t i w :
  tool (call context) = Some t ->
  invocation (call context) = Some i ->
  match settlement env context t i with
  | Throw _ => True
  | Normal r => signal context AfterAwait = true \/ tr_error r <> None
  end ->
  artifacts (snd (execute env context w)) = artifacts w
  /\ telemetry (snd (execute env context w)) = telemetry w.
Proof.
  intros Ht Hi Hpath.
  destruct (execute_paths env context t i w Ht Hi)
    as [(f & Hs & _ & He)
       |[(r & c1 & Hs & Hab & _ & _ & He)
        |[(r & d & Hs & Hab & Hd & _ & He)
         |[(r & c1 & w3 & Hs & Hab & Hd & _ & Hb & He)
          |(r & f & w3 & Hs & Hab & Hd & _ & Hb & He)]]]];
    rewrite He; rewrite Hs in Hpath.
  - rewrite (catch_clause_world env context t i f _ Ht Hi).
    split; reflexivity.
  - split; reflexivity.
  - split; reflexivity.
  - destruct Hpath as [H|H]; congruence.
  - destruct Hpath as [H|H]; congruence.
Qed.

Lemma no_truncation_off_the_success_path_witness :
  artifacts
    (snd (execute
            (sample_env (sample_config true 500 5) 5000
               (settles (text_result (repeated 1000 "x"))))
            (mkContext (shell_call (Some 1000)) always_aborted false)
            initial_world)) = []
  /\ telemetry
       (snd (execute
               (sample_env (sample_config true 500 5) 5000
                  (settles (text_result (repeated 1000 "x"))))
               (mkContext (shell_call (Some 1000)) always_aborted false)
               initial_world)) = [].
Proof.
  exact (no_truncation_off_the_success_path
           (sample_env (sample_config true 500 5) 5000
              (settles (text_result (repeated 1000 "x"))))
           (mkContext (shell_call (Some 1000)) always_aborted false)
           shell_tool shell_invocation initial_world eq_refl eq_refl
           (or_introl eq_refl)).
Defined.

(** X9: when the artifact store faults, the request to store the content
    has been made but no truncation record is logged: the telemetry is
    written only after the store returned.  The execution does not end in
    a success call: it ends in a cancelled call when the token is aborted
    in the handler, else in an error call, which the handler builds
    whenever the classifier returns on the store's fault. *)
Theorem store_fault_logs_no_truncation env context t i w r text f :
  tool (call context) = Some t ->
  invocation (call context) = Some i ->
  settlement env context t i = Normal r ->
  signal context AfterAwait = false ->
  tr_error r = None ->
  llmContent r = TextContent text ->
  truncation_enabled env (name (request (call context))) = true ->
  getTruncateToolOutputThreshold (config env) < strlen text ->
  saveTruncatedToolOutput env text (name (request (call context)))
    (callId (request (call context))) (getProjectTempDir (config env))
  = Throw f ->
  artifacts (snd (execute env context w))
  = (artifacts w ++ [save_request env (call context) text])%list
  /\ telemetry (snd (execute env context w)) = telemetry w
  /\ (signal context InHandler || classifies f = true ->
      exists c w',
        execute env context w = (Normal c, w')
        /\ status c = (if signal context InHandler then Cancelled else Error)
        /\ artifacts w'
           = (artifacts w ++ [save_request env (call context) text])%list
        /\ telemetry w' = telemetry w).
Proof.
  intros Ht Hi Hs Hab Hd Hc Hen Hlen Hsave.
  rewrite (execute_eq env context t i w Ht Hi). cbn zeta.
  rewrite Hs, Hab, Hd. rewrite createSuccessResult_cases, govern_eq.
  rewrite Hc. cbn zeta. rewrite Hen.
  replace (strlen text >? getTruncateToolOutputThreshold (config env))
    with true by (symmetry; apply Z.gtb_lt; exact Hlen).
  cbn [andb]. rewrite Hsave.
  match goal with
  | |- context [catch_clause env context f ?w0] =>
      rewrite (catch_clause_world env context t i f w0 Ht Hi);
      split; [reflexivity|]; split; [reflexivity|]; intro Hret;
      destruct (catch_clause_normal env context t i f w0 Ht Hi Hret)
        as (c & Hcc & Hst & _)
  end.
  rewrite Hcc. exists c. eexists. split; [reflexivity|].
  split; [exact Hst|]. split; reflexivity.
Qed.

Lemma store_fault_logs_no_truncation_witness :
  exists c w',
    execute
      (failing_store_env (sample_config true 500 5) 5000
         (settles (text_result (repeated 1000 "x"))))
      (mkContext (shell_call (Some 1000)) never_aborted false) initial_world
    = (Normal c, w')
    /\ status c = Error
    /\ artifacts w'
       = [mkSaveRequest (repeated 1000 "x") "run_shell_command" "call-1"
            "/tmp/project"]
    /\ telemetry w' = [].
Proof.
  exact (proj2 (proj2
    (store_fault_logs_no_truncation
       (failing_store_env (sample_config true 500 5) 5000
          (settles (text_result (repeated 1000 "x"))))
       (mkContext (shell_call (Some 1000)) never_aborted false)
       shell_tool shell_invocation initial_world
       (text_result (repeated 1000 "x")) (repeated 1000 "x")
       (ThrownError (IsError "ENOSPC: no space left on device"))
       eq_refl eq_refl eq_refl eq_refl eq_refl eq_refl eq_refl eq_refl
       eq_refl))
    eq_refl).
Defined.

(** X10: when the transcript conversion faults after a truncation, the
    content has already been stored and the truncation record already
    logged, although the execution does not end in a success call: it
    ends in a cancelled call when the token is aborted in the handler,
    else in an error call, which the handler builds whenever the
    classifier returns on the conversion's fault; the stored artifact is
    referenced by no response. *)
Theorem conversion_fault_after_truncation env context t i w r text file f :
  tool (call context) = Some t ->
  invocation (call context) = Some i ->
  settlement env context t i = Normal r ->
  signal context AfterAwait = false ->
  tr_error r = None ->
  llmContent r = TextContent text ->
  truncation_enabled env (name (request (call context))) = true ->
  getTruncateToolOutputThreshold (config env) < strlen text ->
  saveTruncatedToolOutput env text (name (request (call context)))
    (callId (request (call context))) (getProjectTempDir (config env))
  = Normal file ->
  convertToFunctionResponse env (name (request (call context)))
    (callId (request (call context)))
    (TextContent
       (formatTruncatedToolOutput env text file
          (getTruncateToolOutputLines (config env))))
    (getActiveModel (config env)) = Throw f ->
  artifacts (snd (execute env context w))
  = (artifacts w ++ [save_request env (call context) text])%list
  /\ telemetry (snd (execute env context w))
     = (telemetry w ++ [truncation_event env (call context) text file])%list
  /\ (signal context InHandler || classifies f = true ->
      exists c w',
        execute env context w = (Normal c, w')
        /\ status c = (if signal context InHandler then Cancelled else Error)
        /\ response_outputFile c = None
        /\ artifacts w'
           = (artifacts w ++ [save_request env (call context) text])%list
        /\ telemetry w'
           = (telemetry w
                ++ [truncation_event env (call context) text file])%list).
Proof.
  intros Ht Hi Hs Hab Hd Hc Hen Hlen Hsave Hconv.
  rewrite (execute_eq env context t i w Ht Hi). cbn zeta.
  rewrite Hs, Hab, Hd. rewrite createSuccessResult_cases, govern_eq.
  rewrite Hc. cbn zeta. rewrite Hen.
  replace (strlen text >? getTruncateToolOutputThreshold (config env))
    with true by (symmetry; apply Z.gtb_lt; exact Hlen).
  cbn [andb]. rewrite Hsave. cbn [fst snd]. rewrite Hconv.
  match goal with
  | |- context [catch_clause env context f ?w0] =>
      rewrite (catch_clause_world env context t i f w0 Ht Hi)
  end.
  split; [reflexivity|]. split; [reflexivity|]. intro Hret.
  unfold catch_clause.
  destruct (signal context InHandler).
  - unfold createCancelledResult. rewrite Ht, Hi. unfold ret.
    eexists. eexists. split; [reflexivity|]. repeat split.
  - cbn [orb] in Hret. unfold classifies in Hret.
    destruct (getToolErrorMessage f) as [m|e]; [|discriminate].
    eexists. eexists. split; [reflexivity|]. repeat split.
Qed.

Lemma conversion_fault_after_truncation_witness :
  exists c w',
    execute
      (failing_convert_env (sample_config true 500 5) 5000
         (settles (text_result (repeated 1000 "x"))))
      (mkContext (shell_call (Some 1000)) never_aborted false) initial_world
    = (Normal c, w')
    /\ status c = Error
    /\ response_outputFile c = None
    /\ artifacts w'
       = [mkSaveRequest (repeated 1000 "x") "run_shell_command" "call-1"
            "/tmp/project"]
    /\ telemetry w'
       = [mkTruncatedEvent "prompt-1" "run_shell_command" 1000 84 500 5].
Proof.
  exact (proj2 (proj2
    (conversion_fault_after_truncation
       (failing_convert_env (sample_config true 500 5) 5000
          (settles (text_result (repeated 1000 "x"))))
       (mkContext (shell_call (Some 1000)) never_aborted false)
       shell_tool shell_invocation initial_world
       (text_result (repeated 1000 "x")) (repeated 1000 "x")
       "/tmp/project/run_shell_command_call-1.output"
       (ThrownValue (JsString "unsupported content"))
       eq_refl eq_refl eq_refl eq_refl eq_refl eq_refl eq_refl eq_refl
       eq_refl eq_refl))
    eq_refl).
Defined.

(** ** Aborts after the checkpoint *)

(** X11: once the test after the await has found the token not aborted
    and the success result is built without a fault, the token is not
    read again: [execute] returns the call that [createSuccessResult]
    built, a success call, also when the token is aborted by then. *)
Theorem abort_after_checkpoint_is_ignored env context t i w w0 r c0 :
  tool (call context) = Some t ->
  invocation (call context) = Some i ->
  settlement env context t i = Normal r ->
  signal context AfterAwait = false ->
  tr_error r = None ->
  fst (createSuccessResult env (call context) r w0) = Normal c0 ->
  signal context InHandler = true ->
  fst (execute env context w) = Normal c0 /\ status c0 = Success.
Proof.
  intros Ht Hi Hs Hab Hd Hb _.
  rewrite (execute_eq env context t i w Ht Hi). cbn zeta.
  rewrite Hs, Hab, Hd.
  match goal with
  | |- context [createSuccessResult env (call context) r ?w1] =>
      rewrite (createSuccessResult_fst env (call context) r w0 w1) in Hb;
      destruct (createSuccessResult env (call context) r w1)
        as [o w3] eqn:Hrun
  end.
  cbn [fst] in Hb. subst o. split; [reflexivity|].
  exact (proj1 (createSuccessResult_inv _ _ _ _ _ _ Hrun)).
Qed.

Lemma abort_after_checkpoint_is_ignored_witness :
  exists c0,
    fst (createSuccessResult
           (sample_env (sample_config true 500 5) 5000
              (settles (text_result "ok")))
           (shell_call (Some 1000)) (text_result "ok") initial_world)
    = Normal c0
    /\ fst (execute
              (sample_env (sample_config true 500 5) 5000
                 (settles (text_result "ok")))
              (mkContext (shell_call (Some 1000)) aborted_late false)
              initial_world)
       = Normal c0
    /\ status c0 = Success.
Proof.
  eexists. split; [cbv; reflexivity|].
  exact (abort_after_checkpoint_is_ignored
           (sample_env (sample_config true 500 5) 5000
              (settles (text_result "ok")))
           (mkContext (shell_call (Some 1000)) aborted_late false)
           shell_tool shell_invocation initial_world initial_world
           (text_result "ok") _ eq_refl eq_refl eq_refl eq_refl eq_refl
           eq_refl eq_refl).
Defined.

(** ** What a status says about the run *)

(** X14: the status of the terminal call is never unfounded.  A success
    call means that the invocation settled with a result without error
    descriptor, that the token was not aborted at the test after the
    await and that no fault reached the handler; the call then shows the
    result's display text and carries no error object and no error kind.
    A cancelled call means that the test which the run made last found
    the token aborted: the test of the handler when a fault reached it,
    the test after the await of a settled result otherwise.  An error
    call means that a fault reached the handler, which found the token
    not aborted and classified the fault, or that the settled result
    carries an error descriptor and the token was not aborted after the
    await. *)
Theorem status_is_justified env context t i w c w' :
  tool (call context) = Some t ->
  invocation (call context) = Some i ->
  execute env context w = (Normal c, w') ->
  (status c = Success ->
   exists r,
     settlement env context t i = Normal r
     /\ tr_error r = None
     /\ signal context AfterAwait = false
     /\ caught_fault env context t i = None
     /\ response_display c = tr_returnDisplay r
     /\ response_errorObject c = None
     /\ response_errorType c = None)
  /\ (status c = Cancelled ->
      match caught_fault env context t i with
      | Some _ => signal context InHandler = true
      | None =>
          (exists r, settlement env context t i = Normal r)
          /\ signal context AfterAwait = true
      end)
  /\ (status c = Error ->
      match caught_fault env context t i with
      | Some f => signal context InHandler = false /\ classifies f = true
      | None =>
          exists r d,
            settlement env context t i = Normal r
            /\ signal context AfterAwait = false
            /\ tr_error r = Some d
      end).
Proof.
  intros Ht Hi Hrun.
  assert (Hcatch : forall f w0,
    caught_fault env context t i = Some f ->
    catch_clause env context f w0 = (Normal c, w') ->
    (status c = Success ->
     exists r,
       settlement env context t i = Normal r
       /\ tr_error r = None
       /\ signal context AfterAwait = false
       /\ caught_fault env context t i = None
       /\ response_display c = tr_returnDisplay r
       /\ response_errorObject c = None
       /\ response_errorType c = None)
    /\ (status c = Cancelled ->
        match caught_fault env context t i with
        | Some _ => signal context InHandler = true
        | None =>
            (exists r, settlement env context t i = Normal r)
            /\ signal context AfterAwait = true
        end)
    /\ (status c = Error ->
        match caught_fault env context t i with
        | Some f => signal context InHandler = false /\ classifies f = true
        | None =>
            exists r d,
              settlement env context t i = Normal r
              /\ signal context AfterAwait = false
              /\ tr_error r = Some d
        end)).
  { intros f w0 Hcf H. rewrite Hcf.
    pose proof (catch_clause_returns_only_if _ _ _ _ _ _ H) as Hret.
    destruct (catch_clause_builds env context t i f w0 c w' Ht Hi H)
      as [(Hs & Hab & _)|(Hs & Hab & _)]; rewrite Hs.
    - split; [discriminate|]. split; [auto|discriminate].
    - split; [discriminate|]. split; [discriminate|].
      intros _. rewrite Hab in Hret. auto. }
  destruct (execute_paths env context t i w Ht Hi)
    as [(f & Hs & Hcf & He)
       |[(r & c1 & Hs & Hab & Hcf & Hb & He)
        |[(r & d & Hs & Hab & Hd & Hcf & He)
         |[(r & c1 & w3 & Hs & Hab & Hd & Hcf & Hb & He)
          |(r & f & w3 & Hs & Hab & Hd & Hcf & _ & He)]]]];
    rewrite He in Hrun.
  - exact (Hcatch f _ Hcf Hrun).
  - injection Hrun as <- _. rewrite Hcf.
    unfold createCancelledResult in Hb. rewrite Ht, Hi in Hb.
    injection Hb as <-. cbn [status].
    split; [discriminate|]. split; [|discriminate].
    intros _. split; [exists r; exact Hs|exact Hab].
  - destruct (createErrorResult_returns env (call context)
                (mkToolExecutionError (ed_message d) (tr_returnDisplay r)
                   (ed_type d)) None) as (c1 & Hc1 & Hst & _).
    rewrite Hc1 in Hrun. injection Hrun as <- _. rewrite Hcf, Hst.
    split; [discriminate|]. split; [discriminate|].
    intros _. exists r, d. auto.
  - injection Hrun as <- <-. rewrite Hcf.
    rewrite createSuccessResult_cases in Hb.
    destruct (govern env (call context) r _) as [[g|f] w2]; [|discriminate].
    destruct (convertToFunctionResponse env _ _ _ _); [|discriminate].
    rewrite Ht, Hi in Hb. injection Hb as <- _. cbn [status].
    split; [|split; discriminate].
    intros _. exists r. repeat split; auto.
  - exact (Hcatch f w3 Hcf Hrun).
Qed.

Lemma status_is_justified_witness :
  (exists c w',
     execute
       (sample_env (sample_config true 500 5) 5000
          (settles (text_result "ok")))
       (mkContext (shell_call (Some 1000)) aborted_late false) initial_world
     = (Normal c, w')
     /\ status c = Success
     /\ exists r,
          Normal (text_result "ok") = Normal r
          /\ tr_error r = None
          /\ aborted_late AfterAwait = false
          /\ caught_fault
               (sample_env (sample_config true 500 5) 5000
                  (settles (text_result "ok")))
               (mkContext (shell_call (Some 1000)) aborted_late false)
               shell_tool shell_invocation = None
          /\ response_display c = tr_returnDisplay r
          /\ response_errorObject c = None
          /\ response_errorType c = None)
  /\ (exists c w',
        execute
          (failing_store_env (sample_config true 500 5) 5000
             (settles (text_result (repeated 1000 "x"))))
          (mkContext (shell_call (Some 1000)) aborted_late false)
          initial_world
        = (Normal c, w')
        /\ status c = Cancelled
        /\ aborted_late InHandler = true)
  /\ (exists c w',
        execute
          (sample_env (sample_config true 500 5) 5000
             (rejects (ThrownValue JsNull)))
          (mkContext (shell_call (Some 1000)) never_aborted false)
          initial_world
        = (Normal c, w')
        /\ status c = Error
        /\ never_aborted InHandler = false
        /\ classifies (ThrownValue JsNull) = true).
Proof.
  split; [|split].
  - eexists. eexists. split; [cbv; reflexivity|]. split; [reflexivity|].
    exact (proj1 (status_is_justified
                    (sample_env (sample_config true 500 5) 5000
                       (settles (text_result "ok")))
                    (mkContext (shell_call (Some 1000)) aborted_late false)
                    shell_tool shell_invocation initial_world _ _
                    eq_refl eq_refl eq_refl)
                 eq_refl).
  - eexists. eexists. split; [cbv; reflexivity|]. split; [reflexivity|].
    exact (proj1 (proj2 (status_is_justified
                    (failing_store_env (sample_config true 500 5) 5000
                       (settles (text_result (repeated 1000 "x"))))
                    (mkContext (shell_call (Some 1000)) aborted_late false)
                    shell_tool shell_invocation initial_world _ _
                    eq_refl eq_refl eq_refl))
                 eq_refl).
  - eexists. eexists. split; [cbv; reflexivity|]. split; [reflexivity|].
    exact (proj2 (proj2 (status_is_justified
                    (sample_env (sample_config true 500 5) 5000
                       (rejects (ThrownValue JsNull)))
                    (mkContext (shell_call (Some 1000)) never_aborted false)
                    shell_tool shell_invocation initial_world _ _
                    eq_refl eq_refl eq_refl))
                 eq_refl).
Defined.
